(** * Flower-shop analytics and recommendations

    A shallow embedding of [backend-python/analytics.py],
    [backend-python/recommender.py] and [backend-python/main.py]: the sales
    aggregator ([get_sales_analytics]), the demand forecaster
    ([predict_demand]), the recommendation engine ([get_recommendations]) and
    the three endpoints that serve them, followed by the properties the
    design document states about them and further properties of the code.

    Conventions of the embedding.
    - A data frame is the list of its rows, in row order; [df.empty] is the
      test for the empty list.
    - A Python [str] is the list of its code points.
    - An [int64] column holds integers ([Z]) and its sums wrap around at 64
      bits, as numpy's do.  Prices, a [float64] column, and every quantity
      computed from them are exact rationals ([Q]), compared with [==]; the
      rounding of binary floating point is not modelled.
    - numpy documents the sort behind [sort_values] (kind ['quicksort']) as
      not stable, so the order it gives to equal values is not fixed by the
      source.  The sort is therefore an argument ([Numpy.t]) of the
      functions that sort, and the properties are proved for every sort
      that sorts.
    - The wall clock is an argument: each [datetime.now()] of the source is a
      parameter of the embedded function.
    - The table schemas belong to the database, not to this repository; the
      records below carry the columns that the code reads. *)

From Stdlib Require Import ZArith QArith Qfield Qminmax Lqa Lia Bool List String Ascii.
From Stdlib Require Import Sorting.Sorted Sorting.Permutation.
Import ListNotations.

Local Open Scope Z_scope.

(* ================================================================== *)
(** * Calendar *)

(** [datetime.date] values are represented by their proleptic Gregorian
    ordinal ([date.toordinal()]: 0001-01-01 is day 1), so that
    [d + timedelta(days=n)] is [d + n] and chronological order is [<]. *)
Module Calendar.

Definition date := Z.

(** Ordinal of the civil date [y]-[m]-[d]. *)
Definition ymd2ord (y m d : Z) : date :=
  let y' := if m <=? 2 then y - 1 else y in
  let era := y' / 400 in
  let yoe := y' - era * 400 in
  let mp := if 2 <? m then m - 3 else m + 9 in
  let doy := (153 * mp + 2) / 5 + d - 1 in
  let doe := yoe * 365 + yoe / 4 - yoe / 100 + doy in
  era * 146097 + doe - 305.

(** Civil date (year, month, day) of an ordinal. *)
Definition ord2ymd (n : date) : Z * Z * Z :=
  let z := n + 305 in
  let era := z / 146097 in
  let doe := z - era * 146097 in
  let yoe := (doe - doe / 1460 + doe / 36524 - doe / 146096) / 365 in
  let doy := doe - (365 * yoe + yoe / 4 - yoe / 100) in
  let mp := (5 * doy + 2) / 153 in
  let d := doy - (153 * mp + 2) / 5 + 1 in
  let m := if mp <? 10 then mp + 3 else mp - 9 in
  let y := yoe + era * 400 in
  (if m <=? 2 then y + 1 else y, m, d).

Definition year (n : date) : Z := fst (fst (ord2ymd n)).
Definition month (n : date) : Z := snd (fst (ord2ymd n)).
Definition day (n : date) : Z := snd (ord2ymd n).

Definition digit (n : Z) : ascii := ascii_of_nat (48 + Z.to_nat (n mod 10)).

Definition pad2 (n : Z) : string :=
  String (digit (n / 10)) (String (digit n) EmptyString).

Definition pad4 (n : Z) : string :=
  String (digit (n / 1000)) (String (digit (n / 100)) (pad2 n)).

(** [d.strftime('%Y-%m-%d')]. *)
Definition strftime (n : date) : string :=
  (pad4 (year n) ++ "-" ++ pad2 (month n) ++ "-" ++ pad2 (day n))%string.

End Calendar.

(** A [datetime]: the calendar date and the time of day in microseconds. *)
Record Timestamp : Type := mkTimestamp { ts_date : Calendar.date; ts_time : Z }.

(** [a >= b] on timestamps. *)
Definition ts_geb (a b : Timestamp) : bool :=
  (ts_date b <? ts_date a) || ((ts_date b =? ts_date a) && (ts_time b <=? ts_time a)).

(** [t - timedelta(days=n)]. *)
Definition minus_days (t : Timestamp) (n : Z) : Timestamp :=
  {| ts_date := ts_date t - n; ts_time := ts_time t |}.

(** A cell of the [ordered_at] column: either text still to be parsed or a
    native timestamp.  A text cell is kept as the timestamp it spells, which
    is what [pd.to_datetime] reads back from it. *)
Inductive TimeCell : Type :=
| Text (t : Timestamp)
| Native (t : Timestamp).

(** [pd.to_datetime] on one cell. *)
Definition to_datetime (c : TimeCell) : Timestamp :=
  match c with Text t => t | Native t => t end.

(* ================================================================== *)
(** * Strings *)

(** A [str]: its code points. *)
Definition str : Type := list Z.

(** The [str] written by a literal of the source. *)
Definition literal (s : string) : str :=
  map (fun c => Z.of_nat (nat_of_ascii c)) (list_ascii_of_string s).

(** Comparison of two [str], code point by code point. *)
Fixpoint str_compare (a b : str) : comparison :=
  match a, b with
  | [], [] => Eq
  | [], _ :: _ => Lt
  | _ :: _, [] => Gt
  | x :: a', y :: b' =>
      match Z.compare x y with
      | Eq => str_compare a' b'
      | c => c
      end
  end.

(* ================================================================== *)
(** * Records *)

(** Modelled from the spec: the schemas of the three tables, which live in
    the database and not in this repository.  The records carry the columns
    of the data model, but for [total_price]: the forecaster reads it on
    Orders, and the aggregator reads it on the frame merged from the three
    tables, where pandas keeps a column under its own name only if no other
    table has a column of that name.  Both reads work only when Orders
    alone carries [total_price], so that is the schema taken here. *)
Module Order.
Record t : Type := mk
  { id : Z; user_id : Z; ordered_at : TimeCell; total_price : Q }.
End Order.

Module OrderItem.
Record t : Type := mk { order_id : Z; flower_id : Z; quantity : Z }.
End OrderItem.

Module Flower.
Record t : Type := mk { id : Z; name : str; price : Q }.
End Flower.

(* ================================================================== *)
(** * Data-frame operations *)

Definition empty {A : Type} (df : list A) : bool :=
  match df with [] => true | _ :: _ => false end.

(** The integer that 64 bits in two's complement hold for [z]. *)
Definition int64 (z : Z) : Z := (z + 2 ^ 63) mod 2 ^ 64 - 2 ^ 63.

(** [series.sum()] on an [int64] column: every addition wraps around. *)
Definition sum_int64 (l : list Z) : Z :=
  fold_left (fun acc x => int64 (acc + x)) l 0.

Definition Qsum (l : list Q) : Q := fold_right Qplus 0%Q l.

(** Strict order on [Q] as a boolean. *)
Definition Qltb (a b : Q) : bool := negb (Qle_bool b a).

Definition is_Eq (c : comparison) : bool :=
  match c with Eq => true | _ => false end.

(** [series.isin(values)]. *)
Definition isin (x : Z) (values : list Z) : bool := existsb (Z.eqb x) values.

Section GroupBy.

Context {R K V : Type}.
Variable cmp : K -> K -> comparison.

(** Insertion of a group key into the sorted list of the keys seen. *)
Fixpoint insert_key (k : K) (ks : list K) : list K :=
  match ks with
  | [] => [k]
  | k1 :: rest =>
      match cmp k k1 with
      | Eq => ks
      | Lt => k :: ks
      | Gt => k1 :: insert_key k rest
      end
  end.

(** The group keys of [groupby]: the distinct keys, ascending
    ([sort=True] is the default). *)
Definition group_keys (ks : list K) : list K := fold_right insert_key [] ks.

Variable key : R -> K.
Variable val : R -> V.
Variable sum : list V -> V.

(** The rows of one group. *)
Definition group_rows (k : K) (df : list R) : list R :=
  filter (fun r => is_Eq (cmp (key r) k)) df.

(** [df.groupby(key)[val].sum()]: one entry per distinct key, ascending by
    key, holding the sum of [val] over the rows of the group. *)
Definition groupby_sum (df : list R) : list (K * V) :=
  map (fun k => (k, sum (map val (group_rows k df)))) (group_keys (map key df)).

End GroupBy.

(** [values[indexer]]: the entries at the positions that [indexer] lists. *)
Definition take {A : Type} (l : list A) (indexer : list nat) : list A :=
  flat_map (fun i => match nth_error l i with Some x => [x] | None => [] end)
           indexer.

Section SortValues.

Context {K V : Type}.

(** [series.sort_values(ascending=False)]: pandas reverses the series,
    asks numpy for the indexer that sorts the reversed values ascending,
    takes the entries in that order and reverses the outcome. *)
Definition sort_values_desc (argsort : list V -> list nat) (l : list (K * V))
    : list (K * V) :=
  rev (take (rev l) (argsort (map snd (rev l)))).

Variable vlt : V -> V -> bool.

(** [series.idxmax()]: the label of the first occurrence of the maximum.
    [None] only on the empty series, where pandas raises. *)
Definition idxmax (l : list (K * V)) : option K :=
  match l with
  | [] => None
  | x :: rest =>
      Some (fst (fold_left (fun best y => if vlt (snd best) (snd y) then y else best)
                           rest x))
  end.

End SortValues.

(** [series.head(n)]. *)
Definition head {A : Type} (n : nat) (l : list A) : list A := firstn n l.

(** The sorts that numpy provides: [ndarray.argsort(kind='quicksort')] on a
    [float64] and on an [int64] array.  Each gives the positions of the
    values in ascending order of value.  numpy documents this kind as not
    stable: where values are equal the order of their positions is the
    sort's own, and it varies with the version of numpy and the processor. *)
Module Numpy.
Record t : Type := mk
  { argsort_float64 : list Q -> list nat;
    argsort_int64 : list Z -> list nat }.
End Numpy.

(* ================================================================== *)
(** * analytics.py *)

(** A row of the merged frame, with the columns that the aggregator reads:
    [name] of the flower, [quantity] of the order item, [total_price],
    [user_id] and [ordered_at] of the order. *)
Module Row.
Record t : Type := mk
  { name : str; quantity : Z; total_price : Q; user_id : Z;
    ordered_at : TimeCell }.
End Row.

(** [df_order_items.merge(df_flowers, left_on='flower_id', right_on='id')]:
    an inner join that keeps the order of the left rows. *)
Definition merge_flowers (df_order_items : list OrderItem.t)
    (df_flowers : list Flower.t) : list (OrderItem.t * Flower.t) :=
  flat_map
    (fun it =>
       map (pair it)
           (filter (fun f => Flower.id f =? OrderItem.flower_id it) df_flowers))
    df_order_items.

(** [df.merge(df_orders, left_on='order_id', right_on='id')]. *)
Definition merge_orders (df : list (OrderItem.t * Flower.t))
    (df_orders : list Order.t) : list Row.t :=
  flat_map
    (fun x =>
       map (fun o =>
              Row.mk (Flower.name (snd x)) (OrderItem.quantity (fst x))
                     (Order.total_price o) (Order.user_id o)
                     (Order.ordered_at o))
           (filter (fun o => Order.id o =? OrderItem.order_id (fst x)) df_orders))
    df.

(** [df['ordered_at'] = pd.to_datetime(df['ordered_at'])] on the merged
    frame, which the function owns. *)
Definition convert_rows (df : list Row.t) : list Row.t :=
  map (fun r =>
         Row.mk (Row.name r) (Row.quantity r) (Row.total_price r) (Row.user_id r)
                (Native (to_datetime (Row.ordered_at r))))
      df.

(** The [.dt] accessor of a converted row. *)
Definition dt (r : Row.t) : Timestamp := to_datetime (Row.ordered_at r).

(** A number of the result: the [int] literal of the guard, or a [float]. *)
Inductive PyNumber : Type :=
| PyInt (n : Z)
| PyFloat (x : Q).

Definition number_value (n : PyNumber) : Q :=
  match n with PyInt n => inject_Z n | PyFloat x => x end.

(** [float(n)]. *)
Definition float (n : PyNumber) : PyNumber := PyFloat (number_value n).

(** The [top_customers] of the result: the list literal [[]] of the guard,
    or the [dict] from user to total, in the order of its entries. *)
Inductive Customers : Type :=
| EmptyList
| Dict (entries : list (Z * Q)).

Definition entries (c : Customers) : list (Z * Q) :=
  match c with EmptyList => [] | Dict d => d end.

Record SalesAnalytics : Type := mkSalesAnalytics
  { most_sold_flower : option str;
    daily_revenue : PyNumber;
    monthly_revenue : PyNumber;
    top_customers : Customers }.

(** The merged and converted frame of [get_sales_analytics]. *)
Definition joined (df_orders : list Order.t) (df_order_items : list OrderItem.t)
    (df_flowers : list Flower.t) : list Row.t :=
  convert_rows (merge_orders (merge_flowers df_order_items df_flowers) df_orders).

(** [get_sales_analytics].  The clock is read three times: [today] is
    [datetime.now().date()], [this_month] is [datetime.now().month] and
    [this_year] is [datetime.now().year]. *)
Definition get_sales_analytics (np : Numpy.t)
    (today : Calendar.date) (this_month this_year : Z)
    (df_orders : list Order.t) (df_order_items : list OrderItem.t)
    (df_flowers : list Flower.t) : SalesAnalytics :=
  if empty df_orders || empty df_order_items then
    {| most_sold_flower := None; daily_revenue := PyInt 0;
       monthly_revenue := PyInt 0; top_customers := EmptyList |}
  else
    let df := joined df_orders df_order_items df_flowers in
    let most_sold :=
      if negb (empty df)
      then idxmax Z.ltb (groupby_sum str_compare Row.name Row.quantity sum_int64 df)
      else None in
    let daily_rev :=
      if negb (empty df)
      then PyFloat (Qsum (map Row.total_price
                              (filter (fun r => ts_date (dt r) =? today) df)))
      else PyInt 0 in
    let monthly_rev :=
      if negb (empty df)
      then PyFloat
             (Qsum (map Row.total_price
                        (filter (fun r => (Calendar.month (ts_date (dt r)) =? this_month)
                                          && (Calendar.year (ts_date (dt r)) =? this_year))
                                df)))
      else PyInt 0 in
    let top_customers :=
      Dict (head 5 (sort_values_desc (Numpy.argsort_float64 np)
                      (groupby_sum Z.compare Row.user_id Row.total_price Qsum df))) in
    {| most_sold_flower := most_sold; daily_revenue := float daily_rev;
       monthly_revenue := float monthly_rev; top_customers := top_customers |}.

(** ** The regression of the forecaster *)

(** The fitted [LinearRegression] model of one feature. *)
Record LinearRegression : Type := mkLinearRegression
  { coef_ : Q; intercept_ : Q }.

Definition Qmean (l : list Q) : Q := (Qsum l / inject_Z (Z.of_nat (List.length l)))%Q.

(** Sum of the products of two columns. *)
Fixpoint dot (a b : list Q) : Q :=
  match a, b with
  | x :: a', y :: b' => (x * y + dot a' b')%Q
  | _, _ => 0%Q
  end.

(** [LinearRegression().fit(X, y)] with one feature and an intercept: both
    columns are centred, the slope is the least-squares solution for the
    centred data and the intercept is recovered from the means. *)
Definition fit (X y : list Q) : LinearRegression :=
  let X_offset := Qmean X in
  let y_offset := Qmean y in
  let Xc := map (fun x => x - X_offset)%Q X in
  let yc := map (fun v => v - y_offset)%Q y in
  let coef := (dot Xc yc / dot Xc Xc)%Q in
  {| coef_ := coef; intercept_ := (y_offset - X_offset * coef)%Q |}.

(** [model.predict] on one sample. *)
Definition predict (model : LinearRegression) (x : Q) : Q :=
  (x * coef_ model + intercept_ model)%Q.

(** ** predict_demand *)

Record ForecastPoint : Type := mkForecastPoint
  { date : string; predicted_demand : Q }.

(** [df_orders['ordered_at'] = pd.to_datetime(df_orders['ordered_at'])]:
    the column of the frame passed by the caller is replaced. *)
Definition convert_orders (df_orders : list Order.t) : list Order.t :=
  map (fun o =>
         Order.mk (Order.id o) (Order.user_id o)
                  (Native (to_datetime (Order.ordered_at o)))
                  (Order.total_price o))
      df_orders.

(** [.dt.date] of an order of the converted frame. *)
Definition order_date (o : Order.t) : Calendar.date :=
  ts_date (to_datetime (Order.ordered_at o)).

(** [daily_sales]: one row [(ds, y)] per order date, ascending. *)
Definition daily_sales (df_orders : list Order.t) : list (Calendar.date * Q) :=
  groupby_sum Z.compare order_date Order.total_price Qsum df_orders.

(** [np.arange(n)] as a float column. *)
Definition arange (n : nat) : list Q := map (fun i => inject_Z (Z.of_nat i)) (seq 0 n).

(** [series.max()] of a date column. *)
Definition max_date (l : list Calendar.date) : Calendar.date :=
  match l with
  | [] => 0
  | d :: rest => fold_left Z.max rest d
  end.

(** [max(0, x)] of Python: the second argument wins only when it is larger. *)
Definition max0 (x : Q) : Q := if Qltb 0 x then x else 0%Q.

(** [enumerate]. *)
Definition enumerate {A : Type} (l : list A) : list (nat * A) :=
  combine (seq 0 (List.length l)) l.

(** The forecast computed from the daily sales: lines 55 to 76. *)
Definition forecast_of (sales : list (Calendar.date * Q)) : list ForecastPoint :=
  let day_num := arange (List.length sales) in
  let model := fit day_num (map snd sales) in
  let future_days :=
    map (fun i => inject_Z (Z.of_nat (List.length sales + i))) (seq 0 7) in
  let predictions := map (predict model) future_days in
  let last_date := max_date (map fst sales) in
  map (fun ip =>
         {| date := Calendar.strftime (last_date + (Z.of_nat (fst ip) + 1));
            predicted_demand := max0 (snd ip) |})
      (enumerate predictions).

(** [predict_demand].  The function assigns to a column of its argument, so
    the embedding returns the forecast together with the frame as the caller
    finds it afterwards. *)
Definition predict_demand (df_orders : list Order.t)
    : list ForecastPoint * list Order.t :=
  if empty df_orders then ([], df_orders)
  else
    let df_orders' := convert_orders df_orders in
    let sales := daily_sales df_orders' in
    if (List.length sales <? 2)%nat then ([], df_orders')
    else (forecast_of sales, df_orders').

(* ================================================================== *)
(** * recommender.py *)

Record Recommendations : Type := mkRecommendations
  { most_purchased : list Flower.t;
    seasonal : list Flower.t;
    trending : list Flower.t }.

(** [items.groupby('flower_id')['quantity'].sum()
      .sort_values(ascending=False).head(3).index.tolist()]. *)
Definition top_flower_ids (np : Numpy.t) (items : list OrderItem.t) : list Z :=
  map fst
      (head 3 (sort_values_desc (Numpy.argsort_int64 np)
                 (groupby_sum Z.compare OrderItem.flower_id OrderItem.quantity
                              sum_int64 items))).

(** [df_order_items[df_order_items['order_id'].isin(orders['id'])]]. *)
Definition items_of (orders : list Order.t) (df_order_items : list OrderItem.t)
    : list OrderItem.t :=
  filter (fun it => isin (OrderItem.order_id it) (map Order.id orders))
         df_order_items.

(** [df_flowers[df_flowers['id'].isin(ids)][['id','name','price']]
      .to_dict('records')]. *)
Definition flowers_with_ids (ids : list Z) (df_flowers : list Flower.t)
    : list Flower.t :=
  filter (fun f => isin (Flower.id f) ids) df_flowers.

(** The ranking shared by the first two lists: lines 16 to 18 and 24 to 28. *)
Definition ranked (np : Numpy.t) (orders : list Order.t)
    (df_order_items : list OrderItem.t) (df_flowers : list Flower.t)
    : list Flower.t :=
  if negb (empty orders) then
    let items := items_of orders df_order_items in
    if negb (empty items)
    then flowers_with_ids (top_flower_ids np items) df_flowers
    else []
  else [].

Definition seasonal_map : list (list Z * list string) :=
  [ ([12; 1; 2], ["Poinsettia"; "Winter Jasmine"; "Amaryllis"]%string);
    ([3; 4; 5], ["Tulip"; "Daffodil"; "Peony"]%string);
    ([6; 7; 8], ["Sunflower"; "Rose"; "Lavender"]%string);
    ([9; 10; 11], ["Chrysanthemum"; "Marigold"; "Dahlia"]%string) ].

(** The loop over [seasonal_map.items()], which stops at the first entry
    whose months contain [month]. *)
Fixpoint current_season_flowers (month : Z) (entries : list (list Z * list string))
    : list string :=
  match entries with
  | [] => []
  | (months, flowers) :: rest =>
      if isin month months then flowers else current_season_flowers month rest
  end.

(** ** Matching of the seasonal pattern *)

(** The letter that [re.IGNORECASE] compares in place of a code point: a
    capital of A-Z stands for its small letter, and so do the four
    code points beyond ASCII that the [re] module folds onto an ASCII
    letter: the dotted capital I (U+0130) and the dotless i (U+0131) onto
    [i], the long s (U+017F) onto [s], the Kelvin sign (U+212A) onto [k].
    No other code point is folded onto an ASCII letter. *)
Definition casefold (c : Z) : Z :=
  if (65 <=? c) && (c <=? 90) then c + 32
  else if (c =? 304) || (c =? 305) then 105
  else if c =? 383 then 115
  else if c =? 8490 then 107
  else c.

(** [sub] starts [s]. *)
Fixpoint starts (sub s : str) : bool :=
  match sub, s with
  | [], _ => true
  | _ :: _, [] => false
  | x :: sub', y :: s' => (x =? y) && starts sub' s'
  end.

(** [sub] occurs in [s]. *)
Fixpoint occurs (sub s : str) : bool :=
  starts sub s
  || match s with
     | [] => false
     | _ :: s' => occurs sub s'
     end.

(** The alternatives of a pattern: the pieces between the bars. *)
Fixpoint alternatives (acc pattern : str) : list str :=
  match pattern with
  | [] => [acc]
  | c :: rest =>
      if c =? 124 then acc :: alternatives [] rest
      else alternatives (acc ++ [c]) rest
  end.

(** [re.search(pattern, s, re.IGNORECASE)] for a pattern that is an
    alternation of literal ASCII words. *)
Definition search_ignorecase (pattern s : str) : bool :=
  existsb (fun alt => occurs (map casefold alt) (map casefold s))
          (alternatives [] pattern).

(** [series.str.contains(pattern, case=False, na=False)] on one name. *)
Definition str_contains (pattern name : str) : bool :=
  search_ignorecase pattern name.

(** [get_recommendations].  The clock is read twice: [now] for the trending
    window and [month] ([datetime.now().month]) for the season. *)
Definition get_recommendations (np : Numpy.t) (now : Timestamp) (month : Z)
    (user_id : Z) (df_orders : list Order.t)
    (df_order_items : list OrderItem.t) (df_flowers : list Flower.t)
    : Recommendations :=
  if empty df_orders || empty df_flowers then
    {| most_purchased := []; seasonal := []; trending := [] |}
  else
    let user_orders := filter (fun o => Order.user_id o =? user_id) df_orders in
    let most_purchased := ranked np user_orders df_order_items df_flowers in
    let last_7_days := minus_days now 7 in
    let recent_orders :=
      filter (fun o => ts_geb (to_datetime (Order.ordered_at o)) last_7_days)
             df_orders in
    let trending := ranked np recent_orders df_order_items df_flowers in
    let pattern :=
      literal (String.concat "|" (current_season_flowers month seasonal_map)) in
    let seasonal :=
      filter (fun f => str_contains pattern (Flower.name f)) df_flowers in
    {| most_purchased := most_purchased; seasonal := seasonal;
       trending := trending |}.

(* ================================================================== *)
(** * main.py *)

(** Outcome of one [pd.read_sql]: the frame read, or the exception raised. *)
Inductive ReadResult (A : Type) : Type :=
| Frame (df : list A)
| ReadError (e : string).

Arguments Frame {A} df.
Arguments ReadError {A} e.

(** The database as the service sees it: what each of the three queries
    gives. *)
Module Db.
Record t : Type := mk
  { orders : ReadResult Order.t;
    order_items : ReadResult OrderItem.t;
    flowers : ReadResult Flower.t }.
End Db.

(** [get_dataframes]: the three reads in order; the first exception is
    caught, reported on the console and answered with three empty frames.
    The second component is what the function prints. *)
Definition get_dataframes (db : Db.t)
    : (list Order.t * list OrderItem.t * list Flower.t) * list string :=
  match Db.orders db with
  | ReadError e => (([], [], []), [("Error fetching data: " ++ e)%string])
  | Frame df_orders =>
      match Db.order_items db with
      | ReadError e => (([], [], []), [("Error fetching data: " ++ e)%string])
      | Frame df_order_items =>
          match Db.flowers db with
          | ReadError e => (([], [], []), [("Error fetching data: " ++ e)%string])
          | Frame df_flowers => ((df_orders, df_order_items, df_flowers), [])
          end
      end
  end.

(** What an endpoint answers: the returned body, or the raised
    [HTTPException]. *)
Inductive Response (A : Type) : Type :=
| Return (body : A)
| HTTPException (status_code : Z) (detail : string).

Arguments Return {A} body.
Arguments HTTPException {A} status_code detail.

(** [GET /recommend/{user_id}]. *)
Definition recommend (np : Numpy.t) (now : Timestamp) (month : Z) (db : Db.t)
    (user_id : Z) : Response Recommendations :=
  let '(df_orders, df_order_items, df_flowers) := fst (get_dataframes db) in
  if empty df_flowers
  then HTTPException 500 "Database connection failed or tables empty"
  else Return (get_recommendations np now month user_id
                 df_orders df_order_items df_flowers).


(** [GET /analytics/demand-prediction]. *)
Definition demand_prediction (db : Db.t) : Response (list ForecastPoint) :=
  let '(df_orders, _, _) := fst (get_dataframes db) in
  if empty df_orders
  then HTTPException 500 "No order data available for prediction"
  else Return (fst (predict_demand df_orders)).

(* ================================================================== *)
(** * Sorts that numpy may provide *)

(** [argsort] sorts: it gives every position once, and a position never
    comes before one that holds a smaller value.  Nothing is said of the
    order of the positions of equal values. *)
Definition sorting {V : Type} (vlt : V -> V -> bool)
    (argsort : list V -> list nat) : Prop :=
  forall vs,
    Permutation (argsort vs) (seq 0 (List.length vs))
    /\ StronglySorted
         (fun i j => forall x y,
              nth_error vs i = Some x -> nth_error vs j = Some y ->
              vlt y x = false)
         (argsort vs).

(** Both sorts of numpy sort. *)
Definition sorts (np : Numpy.t) : Prop :=
  sorting Qltb (Numpy.argsort_float64 np) /\ sorting Z.ltb (Numpy.argsort_int64 np).

Section SortsOfNumpy.

Context {V : Type}.
Variable vlt : V -> V -> bool.

(** One step of the insertion sort: the entry goes before the first entry
    that is not smaller, hence before the entries equal to it. *)
Fixpoint insert_by (x : nat * V) (l : list (nat * V)) : list (nat * V) :=
  match l with
  | [] => [x]
  | y :: rest => if vlt (snd y) (snd x) then y :: insert_by x rest else x :: l
  end.

Definition insertion_sort (l : list (nat * V)) : list (nat * V) :=
  fold_right insert_by [] l.

(** The values with their positions. *)
Definition indexed (vs : list V) : list (nat * V) :=
  combine (seq 0 (List.length vs)) vs.

(** A stable sort: equal values keep the order of their positions. *)
Definition stable_argsort (vs : list V) : list nat :=
  map fst (insertion_sort (indexed vs)).

(** Exchange of the neighbours with equal values, pair after pair. *)
Fixpoint exchange_pairs (l : list (nat * V)) : list (nat * V) :=
  match l with
  | x :: (y :: rest) =>
      if negb (vlt (snd x) (snd y)) && negb (vlt (snd y) (snd x))
      then y :: x :: exchange_pairs rest
      else x :: y :: exchange_pairs rest
  | _ => l
  end.

(** A sort that is not stable: the sorted outcome with the neighbours of
    equal value at the places 1-2, 3-4, ... exchanged. *)
Definition exchanging_argsort (vs : list V) : list nat :=
  map fst
      (match insertion_sort (indexed vs) with
       | [] => []
       | first :: others => first :: exchange_pairs others
       end).

End SortsOfNumpy.

(** A numpy whose sorts are stable. *)
Definition numpy_stable : Numpy.t :=
  Numpy.mk (stable_argsort Qltb) (stable_argsort Z.ltb).

(** A numpy whose sorts are not stable: equal values do not keep the order
    of their positions. *)
Definition numpy_exchanging : Numpy.t :=
  Numpy.mk (exchanging_argsort Qltb) (exchanging_argsort Z.ltb).

(* ================================================================== *)
(** * Vocabulary of the properties *)

(** The result of the aggregator on an empty snapshot. *)
Definition zero_analytics : SalesAnalytics :=
  {| most_sold_flower := None; daily_revenue := PyInt 0;
     monthly_revenue := PyInt 0; top_customers := EmptyList |}.


(** The result of the recommender on an empty snapshot. *)
Definition no_recommendations : Recommendations :=
  {| most_purchased := []; seasonal := []; trending := [] |}.

(** Sum of integers, without bound. *)
Definition Zsum (l : list Z) : Z := fold_right Z.add 0 l.












(** Timestamp [a] is not later than timestamp [b]: an earlier day, or the
    same day and not a later time of day. *)
Definition not_later (a b : Timestamp) : bool :=
  (ts_date a <? ts_date b)
  || ((ts_date a =? ts_date b) && (ts_time a <=? ts_time b)).

(** The same time of day, seven days before [now]. *)
Definition seven_days_before (now : Timestamp) : Timestamp :=
  {| ts_date := ts_date now - 7; ts_time := ts_time now |}.

(** The order was placed no earlier than seven days before [now]. *)
Definition since_7_days (now : Timestamp) (o : Order.t) : bool :=
  not_later (seven_days_before now) (to_datetime (Order.ordered_at o)).


(** The seasonal catalogue, month by month. *)
Definition season_catalog (month : Z) : list string :=
  if (month =? 12) || (month =? 1) || (month =? 2)
  then ["Poinsettia"; "Winter Jasmine"; "Amaryllis"]%string
  else if (month =? 3) || (month =? 4) || (month =? 5)
  then ["Tulip"; "Daffodil"; "Peony"]%string
  else if (month =? 6) || (month =? 7) || (month =? 8)
  then ["Sunflower"; "Rose"; "Lavender"]%string
  else if (month =? 9) || (month =? 10) || (month =? 11)
  then ["Chrysanthemum"; "Marigold"; "Dahlia"]%string
  else [].

(** The code point is in ASCII. *)
Definition ascii (p : Z) : Prop := 0 <= p < 128.

(** Code point [c] is the character [p] up to case: [p] itself, its
    capital or its small letter, or one of the four code points beyond
    ASCII that the case mappings of Unicode tie to an ASCII letter: the
    capital I with a dot (U+0130), whose small letter is i; the dotless i
    (U+0131), whose capital is I; the long s (U+017F), whose capital is S;
    the Kelvin sign (U+212A), whose small letter is k. *)
Definition same_letter (p c : Z) : Prop :=
  c = p
  \/ (65 <= p <= 90 /\ c = p + 32)
  \/ (97 <= p <= 122 /\ c = p - 32)
  \/ ((p = 105 \/ p = 73) /\ (c = 304 \/ c = 305))
  \/ ((p = 115 \/ p = 83) /\ c = 383)
  \/ ((p = 107 \/ p = 75) /\ c = 8490).

(** [n] is a substring of [s] up to the case of the letters. *)
Definition ci_substring (n s : str) : Prop :=
  exists pre w post : str, s = pre ++ w ++ post /\ Forall2 same_letter n w.

(** The distinct order dates of a snapshot. *)
Definition distinct_dates (df_orders : list Order.t) : list Calendar.date :=
  nodup Z.eq_dec (map order_date df_orders).

(** Revenue of one calendar date: the sum of the [total_price] of its
    orders. *)
Definition revenue_on (df_orders : list Order.t) (d : Calendar.date) : Q :=
  Qsum (map Order.total_price (filter (fun o => order_date o =? d) df_orders)).

(** Sum of the squared residuals of the line [a * x + b]. *)
Fixpoint sse (xs ys : list Q) (a b : Q) : Q :=
  match xs, ys with
  | x :: xs', y :: ys' => ((y - (a * x + b)) * (y - (a * x + b)) + sse xs' ys' a b)%Q
  | _, _ => 0%Q
  end.

(** ** Vocabulary of the further properties *)

(** Some query of the database raises. *)
Definition read_fails (db : Db.t) : Prop :=
  (exists e, Db.orders db = ReadError e)
  \/ (exists e, Db.order_items db = ReadError e)
  \/ (exists e, Db.flowers db = ReadError e).

(** The three queries succeed with these frames. *)
Definition reads (db : Db.t) (o : list Order.t) (i : list OrderItem.t)
    (f : list Flower.t) : Prop :=
  Db.orders db = Frame o /\ Db.order_items db = Frame i /\ Db.flowers db = Frame f.

(** The flower and the order that an order item names both exist. *)
Definition resolves (df_orders : list Order.t) (df_flowers : list Flower.t)
    (it : OrderItem.t) : bool :=
  isin (OrderItem.flower_id it) (map Flower.id df_flowers)
  && isin (OrderItem.order_id it) (map Order.id df_orders).

(** The row that the two merges build from an item, its flower and its
    order, once [ordered_at] is converted. *)
Definition row_of (it : OrderItem.t) (fl : Flower.t) (od : Order.t) : Row.t :=
  Row.mk (Flower.name fl) (OrderItem.quantity it) (Order.total_price od)
         (Order.user_id od) (Native (to_datetime (Order.ordered_at od))).


(** ** Sample snapshots *)

Definition midnight (y m d : Z) : Timestamp :=
  {| ts_date := Calendar.ymd2ord y m d; ts_time := 0 |}.

Definition sample_orders : list Order.t :=
  [ Order.mk 1 7 (Text (midnight 2024 1 1)) 10;
    Order.mk 2 7 (Native (midnight 2024 1 2)) 15;
    Order.mk 3 8 (Native (midnight 2024 1 2)) 5;
    Order.mk 4 8 (Native (midnight 2024 1 3)) 30 ].

Definition sample_items : list OrderItem.t :=
  [ OrderItem.mk 1 1 2; OrderItem.mk 2 2 3;
    OrderItem.mk 3 1 2; OrderItem.mk 4 3 5 ].

Definition text_orders : list Order.t :=
  [ Order.mk 1 7 (Text (midnight 2024 1 1)) 10 ].




Definition sample_flowers : list Flower.t :=
  [ Flower.mk 1 (literal "Red Rose Bouquet") 5;
    Flower.mk 2 (literal "Tulip Mix") 5;
    Flower.mk 3 (literal "Lavender") 10 ].

(** A catalogue whose names differ from the seasonal names in the case of
    their letters; the last name is "Ro", the long s (U+017F) and "e". *)
Definition mixed_case_flowers : list Flower.t :=
  [ Flower.mk 1 (literal "Red Rose Bouquet") 5;
    Flower.mk 2 (literal "Tulip Mix") 5;
    Flower.mk 3 (literal "LAVENDER") 10;
    Flower.mk 4 (literal "sunflower seeds") 2;
    Flower.mk 5 [82; 111; 383; 101] 7 ].







(** A database whose order-items query raises. *)
Definition broken_db : Db.t :=
  Db.mk (Frame sample_orders) (ReadError "connection refused") (Frame sample_flowers).

(** A database with the sample tables. *)
Definition sample_db : Db.t :=
  Db.mk (Frame sample_orders) (Frame sample_items) (Frame sample_flowers).

(** A database with flowers and no orders yet. *)
Definition new_shop_db : Db.t :=
  Db.mk (Frame []) (Frame []) (Frame sample_flowers).

(* ================================================================== *)
(** * The model on sample inputs *)

Example ordinal_of_2024_01_01 : Calendar.ymd2ord 2024 1 1 = 738886.
Proof. reflexivity. Qed.

Example civil_date_of_738886 : Calendar.ord2ymd 738886 = (2024, 1, 1).
Proof. reflexivity. Qed.

Example day_after_leap_day :
  Calendar.strftime (Calendar.ymd2ord 2024 2 29 + 1) = "2024-03-01"%string.
Proof. reflexivity. Qed.

Example day_after_new_years_eve :
  Calendar.strftime (Calendar.ymd2ord 2023 12 31 + 1) = "2024-01-01"%string.
Proof. reflexivity. Qed.

Example int64_wraps : sum_int64 [2 ^ 62; 2 ^ 62] = - 2 ^ 63.
Proof. reflexivity. Qed.

Example stable_sort_on_ties :
  sort_values_desc (stable_argsort Z.ltb) [(2, 2); (3, 2); (4, 2); (5, 2); (6, 3)]
  = [(6, 3); (2, 2); (3, 2); (4, 2); (5, 2)].
Proof. reflexivity. Qed.

Example exchanging_sort_on_ties :
  sort_values_desc (exchanging_argsort Z.ltb) [(2, 2); (3, 2); (4, 2); (5, 2); (6, 3)]
  = [(6, 3); (2, 2); (4, 2); (3, 2); (5, 2)].
Proof. reflexivity. Qed.

Example groupby_sum_sample :
  groupby_sum Z.compare fst snd sum_int64 [(3, 1); (1, 2); (3, 4); (2, 8); (1, 16)]
  = [(1, 18); (2, 8); (3, 5)].
Proof. reflexivity. Qed.

Example idxmax_takes_the_first_maximum :
  idxmax Z.ltb [(1, 5); (2, 7); (3, 7)] = Some 2.
Proof. reflexivity. Qed.

Example sample_daily_sales :
  daily_sales sample_orders
  = [ (Calendar.ymd2ord 2024 1 1, (10 + 0)%Q);
      (Calendar.ymd2ord 2024 1 2, (15 + (5 + 0))%Q);
      (Calendar.ymd2ord 2024 1 3, (30 + 0)%Q) ].
Proof. reflexivity. Qed.

Example sample_analytics :
  get_sales_analytics numpy_stable (Calendar.ymd2ord 2024 1 2) 1 2024
    sample_orders sample_items sample_flowers
  = {| most_sold_flower := Some (literal "Lavender");
       daily_revenue := PyFloat (15 + (5 + 0));
       monthly_revenue := PyFloat (10 + (15 + (5 + (30 + 0))));
       top_customers := Dict [(8, (5 + (30 + 0))%Q); (7, (10 + (15 + 0))%Q)] |}.
Proof. reflexivity. Qed.

Example pattern_of_july :
  String.concat "|" (current_season_flowers 7 seasonal_map)
  = "Sunflower|Rose|Lavender"%string.
Proof. reflexivity. Qed.

Example sample_recommendations :
  get_recommendations numpy_stable (midnight 2024 1 5) 7 7
    sample_orders sample_items sample_flowers
  = {| most_purchased :=
         [ Flower.mk 1 (literal "Red Rose Bouquet") 5;
           Flower.mk 2 (literal "Tulip Mix") 5 ];
       seasonal := [ Flower.mk 1 (literal "Red Rose Bouquet") 5;
                     Flower.mk 3 (literal "Lavender") 10 ];
       trending := sample_flowers |}.
Proof. reflexivity. Qed.

(* ================================================================== *)
(** * Facts about the data-frame operations *)

Lemma empty_false_iff {A : Type} (l : list A) : empty l = false <-> l <> [].
Proof. destruct l; simpl; split; congruence. Qed.

Lemma isin_In x l : isin x l = true <-> In x l.
Proof.
  unfold isin. rewrite existsb_exists. split.
  - intros (y & Hy & E). apply Z.eqb_eq in E. now subst.
  - intros H. exists x. split; [assumption | apply Z.eqb_refl].
Qed.

Section GroupByFacts.

Context {R K V : Type}.
Variable cmp : K -> K -> comparison.
Hypothesis cmp_eq : forall a b, cmp a b = Eq <-> a = b.

Lemma In_insert_key k ks x :
  In x (insert_key cmp k ks) <-> x = k \/ In x ks.
Proof.
  induction ks as [| k1 rest IH]; simpl.
  - intuition.
  - destruct (cmp k k1) eqn:E; simpl.
    + apply cmp_eq in E. subst k1. intuition.
    + intuition.
    + rewrite IH. intuition.
Qed.

Lemma In_group_keys ks x : In x (group_keys cmp ks) <-> In x ks.
Proof.
  induction ks as [| k rest IH]; simpl.
  - tauto.
  - rewrite In_insert_key, IH. intuition.
Qed.

Variable key : R -> K.
Variable val : R -> V.
Variable sum : list V -> V.

Lemma groupby_sum_keys df :
  map fst (groupby_sum cmp key val sum df) = group_keys cmp (map key df).
Proof.
  unfold groupby_sum. rewrite map_map. simpl. apply map_id.
Qed.

Lemma groupby_sum_In df k v :
  In (k, v) (groupby_sum cmp key val sum df) <->
  (exists r, In r df /\ key r = k) /\ v = sum (map val (group_rows cmp key k df)).
Proof.
  unfold groupby_sum. rewrite in_map_iff. split.
  - intros (k' & E & Hk). inversion E; subst. split; [| reflexivity].
    apply (proj1 (In_group_keys _ _)) in Hk. apply in_map_iff in Hk.
    destruct Hk as (r & Hr & Hin). now exists r.
  - intros ((r & Hin & Hr) & ->). exists k. split; [reflexivity |].
    apply (proj2 (In_group_keys _ _)). apply in_map_iff. now exists r.
Qed.


End GroupByFacts.

Lemma Zcompare_eq a b : Z.compare a b = Eq <-> a = b.
Proof. apply Z.compare_eq_iff. Qed.

Lemma group_rows_Z {R : Type} (key : R -> Z) k (df : list R) :
  group_rows Z.compare key k df = filter (fun r => key r =? k) df.
Proof.
  unfold group_rows. apply filter_ext. intros r.
  rewrite Z.eqb_compare. reflexivity.
Qed.

Lemma insert_key_sorted k ks :
  StronglySorted Z.lt ks -> StronglySorted Z.lt (insert_key Z.compare k ks).
Proof.
  induction 1 as [| k1 rest Hs IH Hall]; simpl.
  - repeat constructor.
  - destruct (Z.compare_spec k k1) as [E | E | E].
    + now constructor.
    + constructor; [now constructor |].
      constructor; [assumption |].
      rewrite Forall_forall in *. intros y Hy. specialize (Hall y Hy). lia.
    + constructor; [assumption |].
      rewrite Forall_forall in *. intros y Hy.
      apply (proj1 (In_insert_key Z.compare Zcompare_eq _ _ _)) in Hy.
      destruct Hy as [-> | Hy]; [assumption | now apply Hall].
Qed.

Lemma group_keys_sorted ks : StronglySorted Z.lt (group_keys Z.compare ks).
Proof.
  induction ks as [| k rest IH]; simpl.
  - constructor.
  - now apply insert_key_sorted.
Qed.

Lemma sorted_lt_NoDup ks : StronglySorted Z.lt ks -> NoDup ks.
Proof.
  induction 1 as [| k rest Hs IH Hall]; constructor; [| assumption].
  intros Hin. rewrite Forall_forall in Hall. specialize (Hall k Hin). lia.
Qed.

Lemma group_keys_length ks :
  List.length (group_keys Z.compare ks) = List.length (nodup Z.eq_dec ks).
Proof.
  apply Permutation_length. apply NoDup_Permutation.
  - apply sorted_lt_NoDup, group_keys_sorted.
  - apply NoDup_nodup.
  - intros x. rewrite (In_group_keys Z.compare Zcompare_eq), nodup_In. tauto.
Qed.

(** ** Sorting *)






Lemma StronglySorted_map {A B : Type} (f : A -> B) (R : B -> B -> Prop) l :
  StronglySorted R (map f l) <-> StronglySorted (fun a b => R (f a) (f b)) l.
Proof.
  induction l as [| a l IH]; simpl; split; intros H; try constructor;
    inversion H as [| ? ? Hs Hall]; subst.
  - now apply IH.
  - rewrite Forall_map in Hall. exact Hall.
  - now apply IH.
  - rewrite Forall_map. exact Hall.
Qed.

Lemma StronglySorted_weaken_In {A : Type} (R S : A -> A -> Prop) l :
  (forall a b, In a l -> In b l -> R a b -> S a b) ->
  StronglySorted R l -> StronglySorted S l.
Proof.
  intros HRS Hs. induction Hs as [| a l Hs IH Hall]; constructor.
  - apply IH. intros x y Hx Hy. apply HRS; now right.
  - rewrite Forall_forall in *. intros b Hb.
    apply HRS; [now left | now right | now apply Hall].
Qed.


Section SortsFacts.

Context {V : Type}.
Variable vlt : V -> V -> bool.
Hypothesis vlt_asym : forall a b, vlt a b = true -> vlt b a = false.
Hypothesis vlt_ntrans :
  forall a b c, vlt a b = false -> vlt b c = false -> vlt a c = false.

Lemma In_insert_by (x : nat * V) l z :
  In z (insert_by vlt x l) <-> z = x \/ In z l.
Proof.
  induction l as [| y rest IH]; simpl.
  - intuition.
  - destruct (vlt (snd y) (snd x)); simpl; [rewrite IH |]; intuition.
Qed.

Lemma insert_by_perm (x : nat * V) l : Permutation (insert_by vlt x l) (x :: l).
Proof.
  induction l as [| y rest IH]; simpl.
  - reflexivity.
  - destruct (vlt (snd y) (snd x)).
    + rewrite IH. apply perm_swap.
    + reflexivity.
Qed.

Lemma insertion_sort_perm (l : list (nat * V)) :
  Permutation (insertion_sort vlt l) l.
Proof.
  induction l as [| x l IH]; simpl.
  - reflexivity.
  - rewrite insert_by_perm. now constructor.
Qed.

Lemma insert_by_sorted x l :
  StronglySorted (fun a b : nat * V => vlt (snd b) (snd a) = false) l ->
  StronglySorted (fun a b : nat * V => vlt (snd b) (snd a) = false)
                 (insert_by vlt x l).
Proof.
  induction 1 as [| y rest Hs IH Hall]; simpl.
  - repeat constructor.
  - rewrite Forall_forall in Hall. destruct (vlt (snd y) (snd x)) eqn:Eyx.
    + constructor; [exact IH |].
      apply Forall_forall. intros z Hz.
      apply (proj1 (In_insert_by _ _ _)) in Hz. destruct Hz as [-> | Hz].
      * now apply vlt_asym.
      * now apply Hall.
    + constructor; [constructor; [assumption | now apply Forall_forall] |].
      constructor; [exact Eyx |].
      apply Forall_forall. intros z Hz.
      exact (vlt_ntrans _ _ _ (Hall z Hz) Eyx).
Qed.

Lemma insertion_sort_sorted l :
  StronglySorted (fun a b : nat * V => vlt (snd b) (snd a) = false)
                 (insertion_sort vlt l).
Proof.
  induction l as [| x l IH]; simpl.
  - constructor.
  - now apply insert_by_sorted.
Qed.



Lemma combine_seq_In (vs : list V) : forall s i x,
  In (i, x) (combine (seq s (List.length vs)) vs) ->
  (s <= i)%nat /\ nth_error vs (i - s) = Some x.
Proof.
  induction vs as [| v vs IH]; intros s i x H; simpl in H; [contradiction |].
  destruct H as [E | H].
  - inversion E; subst. rewrite Nat.sub_diag. split; [lia | reflexivity].
  - apply IH in H. destruct H as (Hle & Hn). split; [lia |].
    replace (i - s)%nat with (S (i - S s)) by lia. exact Hn.
Qed.

Lemma indexed_In (vs : list V) i x :
  In (i, x) (indexed vs) -> nth_error vs i = Some x.
Proof.
  intros H. apply combine_seq_In in H. destruct H as (_ & H).
  now rewrite Nat.sub_0_r in H.
Qed.

Lemma map_fst_combine {A B : Type} (l1 : list A) : forall (l2 : list B),
  List.length l1 = List.length l2 -> map fst (combine l1 l2) = l1.
Proof.
  induction l1 as [| a l1 IH]; intros [| b l2] H; try discriminate;
    [reflexivity |].
  simpl. f_equal. apply IH. now injection H.
Qed.

(** Entries that are the indexed values in ascending order of value give an
    indexer that sorts. *)
Lemma sorted_entries_sort vs (es : list (nat * V)) :
  Permutation es (indexed vs) ->
  StronglySorted (fun a b : nat * V => vlt (snd b) (snd a) = false) es ->
  Permutation (map fst es) (seq 0 (List.length vs))
  /\ StronglySorted
       (fun i j => forall x y,
            nth_error vs i = Some x -> nth_error vs j = Some y ->
            vlt y x = false)
       (map fst es).
Proof.
  intros Hp Hs. split.
  - rewrite (Permutation_map fst Hp). unfold indexed.
    rewrite map_fst_combine; [reflexivity | now rewrite length_seq].
  - apply StronglySorted_map.
    eapply StronglySorted_weaken_In; [| exact Hs].
    intros [i v] [j w] Ha Hb H x y Hx Hy. cbn [fst snd] in *.
    apply (Permutation_in _ Hp) in Ha, Hb.
    apply indexed_In in Ha, Hb. congruence.
Qed.

Lemma stable_argsort_sorting : sorting vlt (stable_argsort vlt).
Proof.
  intros vs. apply sorted_entries_sort.
  - apply insertion_sort_perm.
  - apply insertion_sort_sorted.
Qed.


End SortsFacts.

Lemma Qltb_true_iff a b : Qltb a b = true <-> (a < b)%Q.
Proof.
  unfold Qltb. rewrite negb_true_iff, <- not_true_iff_false, Qle_bool_iff.
  split; [apply Qnot_le_lt | apply Qlt_not_le].
Qed.

Lemma Qltb_false_iff a b : Qltb a b = false <-> (b <= a)%Q.
Proof. unfold Qltb. rewrite negb_false_iff. apply Qle_bool_iff. Qed.

Lemma Qltb_asym a b : Qltb a b = true -> Qltb b a = false.
Proof. rewrite Qltb_true_iff, Qltb_false_iff. apply Qlt_le_weak. Qed.

Lemma Qltb_ntrans a b c : Qltb a b = false -> Qltb b c = false -> Qltb a c = false.
Proof. rewrite !Qltb_false_iff. intros H1 H2. now apply Qle_trans with b. Qed.

Lemma Zltb_asym a b : (a <? b) = true -> (b <? a) = false.
Proof. rewrite Z.ltb_lt, Z.ltb_ge. lia. Qed.

Lemma Zltb_ntrans a b c : (a <? b) = false -> (b <? c) = false -> (a <? c) = false.
Proof. rewrite !Z.ltb_ge. lia. Qed.

(** The stable sorts sort. *)
Lemma numpy_stable_sorts : sorts numpy_stable.
Proof.
  split.
  - apply stable_argsort_sorting; [exact Qltb_asym | exact Qltb_ntrans].
  - apply stable_argsort_sorting; [exact Zltb_asym | exact Zltb_ntrans].
Qed.


(** ** Taking entries by position *)






Section SortValuesFacts.

Context {K V : Type}.
Variable vlt : V -> V -> bool.
Variable argsort : list V -> list nat.
Hypothesis argsort_sorts : sorting vlt argsort.



End SortValuesFacts.

Section HeadFacts.

Context {A : Type}.
Variable R : A -> A -> Prop.





End HeadFacts.

(** ** Top of a sorted series *)

Section TopOfSeries.

Context {V : Type}.
Variable vlt : V -> V -> bool.
Variable argsort : list V -> list nat.
Hypothesis argsort_sorts : sorting vlt argsort.
Variable n : nat.
Variable series : list (Z * V).
Hypothesis series_sorted : StronglySorted Z.lt (map fst series).






End TopOfSeries.

(** ** Maximum of a series *)






(** ** Sums *)

Lemma int64_add_l a b : int64 (int64 a + b) = int64 (a + b).
Proof.
  unfold int64. f_equal.
  replace ((a + 2 ^ 63) mod 2 ^ 64 - 2 ^ 63 + b + 2 ^ 63)
    with ((a + 2 ^ 63) mod 2 ^ 64 + b) by ring.
  rewrite Z.add_mod_idemp_l by (compute; discriminate).
  f_equal. ring.
Qed.


Lemma fold_int64 (l : list Z) : forall a,
  fold_left (fun acc x => int64 (acc + x)) l (int64 a) = int64 (a + Zsum l).
Proof.
  induction l as [| x l IH]; intros a; simpl.
  - now rewrite Z.add_0_r.
  - rewrite int64_add_l, IH. f_equal. ring.
Qed.

(** The sum of an [int64] column is the sum of its values, wrapped. *)
Lemma sum_int64_spec (l : list Z) : sum_int64 l = int64 (Zsum l).
Proof. unfold sum_int64. exact (fold_int64 l 0). Qed.

Lemma Zsum_perm (l l' : list Z) : Permutation l l' -> Zsum l = Zsum l'.
Proof. induction 1; simpl; lia. Qed.





(** ** The merged frame *)


(* ================================================================== *)
(** * The sales aggregator *)


(** C7.  When the Orders snapshot or the OrderItems snapshot is empty,
    [get_sales_analytics] returns the zero result (no best seller, both
    revenues the integer 0, the customers an empty list), whatever the
    Flowers snapshot holds: nothing is joined, and the function returns a
    value rather than failing. *)
Theorem empty_snapshot_gives_zero_analytics
    np today this_month this_year orders items flowers :
  orders = [] \/ items = [] ->
  get_sales_analytics np today this_month this_year orders items flowers
  = zero_analytics.
Proof.
  intros [-> | ->]; unfold get_sales_analytics.
  - reflexivity.
  - cbn [empty]. rewrite orb_true_r. reflexivity.
Qed.

Lemma empty_snapshot_gives_zero_analytics_witness :
  (sample_orders = [] \/ @nil OrderItem.t = [])
  /\ get_sales_analytics numpy_stable (Calendar.ymd2ord 2024 1 2) 1 2024
       sample_orders [] sample_flowers = zero_analytics.
Proof.
  split.
  - right. reflexivity.
  - apply (empty_snapshot_gives_zero_analytics numpy_stable
             (Calendar.ymd2ord 2024 1 2) 1 2024 sample_orders [] sample_flowers).
    right. reflexivity.
Defined.










(** ** Ranking of the customers *)




(* ================================================================== *)
(** * The demand forecaster *)

Lemma order_date_convert o :
  map order_date (convert_orders o) = map order_date o.
Proof. unfold convert_orders. rewrite map_map. reflexivity. Qed.

Lemma group_rows_convert k orders :
  map Order.total_price (group_rows Z.compare order_date k (convert_orders orders))
  = map Order.total_price (group_rows Z.compare order_date k orders).
Proof.
  unfold group_rows, convert_orders.
  induction orders as [| o orders IH]; simpl; [reflexivity |].
  change (order_date
            (Order.mk (Order.id o) (Order.user_id o)
                      (Native (to_datetime (Order.ordered_at o)))
                      (Order.total_price o)))
    with (order_date o).
  destruct (is_Eq (order_date o ?= k)); simpl; now rewrite IH.
Qed.

Lemma daily_sales_convert orders :
  daily_sales (convert_orders orders) = daily_sales orders.
Proof.
  unfold daily_sales, groupby_sum. rewrite order_date_convert.
  apply map_ext. intros k. now rewrite group_rows_convert.
Qed.

Lemma convert_orders_idempotent orders :
  convert_orders (convert_orders orders) = convert_orders orders.
Proof. unfold convert_orders. rewrite map_map. reflexivity. Qed.

Lemma daily_sales_length orders :
  List.length (daily_sales orders) = List.length (distinct_dates orders).
Proof.
  unfold daily_sales, distinct_dates.
  rewrite <- group_keys_length, <- (length_map fst), groupby_sum_keys.
  reflexivity.
Qed.

Lemma daily_sales_In orders d y :
  In (d, y) (daily_sales orders) <->
  (exists o, In o orders /\ order_date o = d) /\ y = revenue_on orders d.
Proof.
  unfold daily_sales, revenue_on.
  rewrite (groupby_sum_In Z.compare Zcompare_eq), group_rows_Z. reflexivity.
Qed.

Lemma daily_sales_sorted orders : StronglySorted Z.lt (map fst (daily_sales orders)).
Proof. unfold daily_sales. rewrite groupby_sum_keys. apply group_keys_sorted. Qed.

Lemma forecast_of_length sales : List.length (forecast_of sales) = 7%nat.
Proof.
  unfold forecast_of, enumerate.
  rewrite length_map, length_combine, length_seq, !length_map, length_seq.
  reflexivity.
Qed.

(** What [predict_demand] returns and what it leaves in the caller's frame. *)
Lemma predict_demand_eq orders :
  predict_demand orders =
  (if (List.length (daily_sales orders) <? 2)%nat then []
   else forecast_of (daily_sales orders),
   convert_orders orders).
Proof.
  unfold predict_demand. destruct orders as [| o orders]; [reflexivity |].
  cbn [empty]. cbv zeta. rewrite daily_sales_convert.
  destruct (List.length (daily_sales (o :: orders)) <? 2)%nat; reflexivity.
Qed.

(** Running the forecaster on the frame it left behind gives the same
    forecast and leaves the frame as it is. *)
Lemma predict_demand_again orders :
  predict_demand (snd (predict_demand orders))
  = (fst (predict_demand orders), snd (predict_demand orders)).
Proof.
  rewrite !predict_demand_eq. cbn [fst snd].
  now rewrite daily_sales_convert, convert_orders_idempotent.
Qed.

(** A snapshot that already holds native timestamps is left as it was. *)
Lemma predict_demand_keeps_native_snapshot orders :
  Forall (fun o => exists t, Order.ordered_at o = Native t) orders ->
  snd (predict_demand orders) = orders.
Proof.
  intros H. rewrite predict_demand_eq. cbn [snd]. unfold convert_orders.
  induction H as [| o orders (t & E) _ IH]; simpl; [reflexivity |].
  rewrite IH. f_equal. destruct o as [i u c p]. simpl in E. subst c.
  reflexivity.
Qed.

(** C8.  [predict_demand] returns the empty sequence exactly when Orders is
    empty or has fewer than 2 distinct order dates; in every other case it
    returns exactly 7 forecast points.  The function is total: the
    degenerate cases yield the empty sequence, not a failure. *)
Theorem predict_demand_empty_or_seven_points orders :
  (fst (predict_demand orders) = [] <->
   orders = [] \/ (List.length (distinct_dates orders) < 2)%nat)
  /\ (~ (orders = [] \/ (List.length (distinct_dates orders) < 2)%nat) ->
      List.length (fst (predict_demand orders)) = 7%nat).
Proof.
  rewrite predict_demand_eq. cbn [fst]. rewrite daily_sales_length.
  destruct (Nat.ltb_spec (List.length (distinct_dates orders)) 2) as [Hlt | Hge].
  - split; [| tauto]. split; auto.
  - split.
    + split.
      * intros H. apply (f_equal (@List.length _)) in H.
        rewrite forecast_of_length in H. discriminate.
      * intros [-> | H]; [simpl in Hge |]; lia.
    + intros _. apply forecast_of_length.
Qed.

Lemma predict_demand_empty_or_seven_points_witness :
  ~ (sample_orders = [] \/ (List.length (distinct_dates sample_orders) < 2)%nat)
  /\ List.length (fst (predict_demand sample_orders)) = 7%nat.
Proof.
  assert (H : ~ (sample_orders = []
                 \/ (List.length (distinct_dates sample_orders) < 2)%nat)).
  { intros [H | H]; [discriminate | vm_compute in H; lia]. }
  split; [exact H |].
  exact (proj2 (predict_demand_empty_or_seven_points sample_orders) H).
Defined.

(** C4 (the code departs from it).  [predict_demand] assigns the parsed
    [ordered_at] column to the frame it was given: on a snapshot whose
    [ordered_at] holds text, the caller's Orders frame is not the same after
    the call as before. *)
Theorem predict_demand_rewrites_the_snapshot :
  text_orders = [ Order.mk 1 7 (Text (midnight 2024 1 1)) 10 ]
  /\ snd (predict_demand text_orders)
     = [ Order.mk 1 7 (Native (midnight 2024 1 1)) 10 ]
  /\ snd (predict_demand text_orders) <> text_orders.
Proof.
  split; [reflexivity |]. split.
  - reflexivity.
  - rewrite predict_demand_eq. cbn [snd]. discriminate.
Qed.

(** ** Least squares *)

Lemma inject_Z_succ (n : nat) :
  (inject_Z (Z.of_nat (S n)) == inject_Z (Z.of_nat n) + 1)%Q.
Proof.
  rewrite Nat2Z.inj_succ. unfold Z.succ. rewrite inject_Z_plus. reflexivity.
Qed.

Lemma sse_expand xs : forall ys a b,
  List.length xs = List.length ys ->
  (sse xs ys a b ==
   dot ys ys - 2 * a * dot xs ys - 2 * b * Qsum ys
   + a * a * dot xs xs + 2 * a * b * Qsum xs
   + b * b * inject_Z (Z.of_nat (List.length xs)))%Q.
Proof.
  induction xs as [| x xs IH]; intros [| y ys] a b Hlen; try discriminate.
  - simpl. ring.
  - injection Hlen as Hlen. cbn [sse dot Qsum fold_right List.length].
    rewrite (IH ys a b Hlen), inject_Z_succ. fold (Qsum ys) (Qsum xs). ring.
Qed.

Lemma dot_centred xs : forall ys mx my,
  List.length xs = List.length ys ->
  (dot (map (fun x => x - mx) xs) (map (fun y => y - my) ys) ==
   dot xs ys - mx * Qsum ys - my * Qsum xs
   + inject_Z (Z.of_nat (List.length xs)) * mx * my)%Q.
Proof.
  induction xs as [| x xs IH]; intros [| y ys] mx my Hlen; try discriminate.
  - simpl. ring.
  - injection Hlen as Hlen. cbn [map dot Qsum fold_right List.length].
    rewrite (IH ys mx my Hlen), inject_Z_succ. fold (Qsum ys) (Qsum xs). ring.
Qed.

Lemma Qsquare_nonneg (x : Q) : (0 <= x * x)%Q.
Proof.
  destruct (Qlt_le_dec x 0) as [H | H].
  - setoid_replace (x * x)%Q with ((- x) * (- x))%Q by ring.
    apply Qmult_le_0_compat; lra.
  - now apply Qmult_le_0_compat.
Qed.

Lemma dot_self_nonneg l : (0 <= dot l l)%Q.
Proof.
  induction l as [| x l IH]; simpl; [apply Qle_refl |].
  pose proof (Qsquare_nonneg x). lra.
Qed.

Lemma dot_self_zero l : (dot l l == 0)%Q -> forall x, In x l -> (x == 0)%Q.
Proof.
  induction l as [| y l IH]; simpl; intros H x Hx; [contradiction |].
  pose proof (Qsquare_nonneg y) as Hy. pose proof (dot_self_nonneg l) as Hl.
  destruct Hx as [<- | Hx].
  - assert (E : (y * y == 0)%Q) by lra.
    apply Qmult_integral in E. tauto.
  - apply IH; [lra | assumption].
Qed.

(** The quadratic part of the squared residuals is a sum of squares. *)
Lemma quadratic_nonneg xs (da db : Q) :
  (0 <= da * da * dot xs xs + 2 * da * db * Qsum xs
        + db * db * inject_Z (Z.of_nat (List.length xs)))%Q.
Proof.
  induction xs as [| x xs IH].
  - cbn [dot Qsum fold_right List.length Z.of_nat].
    setoid_replace (da * da * 0 + 2 * da * db * 0 + db * db * inject_Z 0)%Q
      with 0%Q by (change (inject_Z 0) with 0%Q; ring).
    apply Qle_refl.
  - cbn [dot Qsum fold_right List.length]. fold (Qsum xs).
    rewrite inject_Z_succ.
    pose proof (Qsquare_nonneg (da * x + db)) as Hsq.
    setoid_replace
      (da * da * (x * x + dot xs xs) + 2 * da * db * (x + Qsum xs)
       + db * db * (inject_Z (Z.of_nat (List.length xs)) + 1))%Q
      with ((da * x + db) * (da * x + db)
            + (da * da * dot xs xs + 2 * da * db * Qsum xs
               + db * db * inject_Z (Z.of_nat (List.length xs))))%Q by ring.
    lra.
Qed.

(** The normal equations of the fit, on the sums of the data. *)
Lemma normal_equations (n Sx Sy Sxx Sxy D1 D2 : Q) :
  ~ (n == 0)%Q -> ~ (D2 == 0)%Q ->
  (D1 == Sxy - Sx * Sy / n)%Q -> (D2 == Sxx - Sx * Sx / n)%Q ->
  (D1 / D2 * Sx + (Sy / n - Sx / n * (D1 / D2)) * n == Sy)%Q
  /\ (D1 / D2 * Sxx + (Sy / n - Sx / n * (D1 / D2)) * Sx == Sxy)%Q.
Proof.
  intros Hn HD E1 E2. split.
  - field. split; assumption.
  - assert (Exx : (Sxx == D2 + Sx * Sx / n)%Q) by (rewrite E2; field; assumption).
    assert (Exy : (Sxy == D1 + Sx * Sy / n)%Q) by (rewrite E1; field; assumption).
    rewrite Exx, Exy. field. split; assumption.
Qed.

(** The fitted line minimises the sum of the squared residuals. *)
Lemma fit_least_squares xs ys :
  List.length xs = List.length ys -> xs <> [] ->
  ~ (dot (map (fun x => x - Qmean xs) xs) (map (fun x => x - Qmean xs) xs) == 0)%Q ->
  forall a b,
    (sse xs ys (coef_ (fit xs ys)) (intercept_ (fit xs ys)) <= sse xs ys a b)%Q.
Proof.
  intros Hlen Hne HD a' b'.
  rewrite !sse_expand by assumption.
  unfold fit. cbn [coef_ intercept_].
  pose proof (dot_centred xs ys (Qmean xs) (Qmean ys) Hlen) as E1.
  pose proof (dot_centred xs xs (Qmean xs) (Qmean xs) eq_refl) as E2.
  unfold Qmean in *. rewrite <- Hlen in *.
  assert (Hn : ~ (inject_Z (Z.of_nat (List.length xs)) == 0)%Q).
  { clear - Hne. destruct xs as [| x xs]; [congruence |].
    cbn [List.length]. rewrite inject_Z_succ.
    assert (0 <= inject_Z (Z.of_nat (List.length xs)))%Q.
    { change 0%Q with (inject_Z 0). rewrite <- Zle_Qle. lia. }
    lra. }
  pose proof (quadratic_nonneg xs) as Hq.
  set (D1 := dot (map _ xs) (map _ ys)) in *.
  set (D2 := dot (map _ xs) (map _ xs)) in *.
  set (n := inject_Z (Z.of_nat (List.length xs))) in *.
  set (Sx := Qsum xs) in *. set (Sy := Qsum ys) in *.
  set (Sxx := dot xs xs) in *. set (Sxy := dot xs ys) in *.
  set (Syy := dot ys ys) in *.
  clearbody D1 D2 n Sx Sy Sxx Sxy Syy. clear Hlen Hne.
  assert (E1' : (D1 == Sxy - Sx * Sy / n)%Q) by (rewrite E1; field; assumption).
  assert (E2' : (D2 == Sxx - Sx * Sx / n)%Q) by (rewrite E2; field; assumption).
  destruct (normal_equations n Sx Sy Sxx Sxy D1 D2 Hn HD E1' E2') as (N1 & N2).
  set (a := (D1 / D2)%Q) in *.
  set (b := (Sy / n - Sx / n * a)%Q) in *.
  pose proof (Hq (a' - a) (b' - b))%Q as Hquad.
  clearbody a b.
  setoid_replace
    (Syy - 2 * a' * Sxy - 2 * b' * Sy + a' * a' * Sxx + 2 * a' * b' * Sx
     + b' * b' * n)%Q
    with ((Syy - 2 * a * Sxy - 2 * b * Sy + a * a * Sxx + 2 * a * b * Sx
           + b * b * n)
          + ((a' - a) * (a' - a) * Sxx + 2 * (a' - a) * (b' - b) * Sx
             + (b' - b) * (b' - b) * n)
          + 2 * (a' - a) * (a * Sxx + b * Sx - Sxy)
          + 2 * (b' - b) * (a * Sx + b * n - Sy))%Q by ring.
  rewrite N1, N2.
  setoid_replace (Sxy - Sxy)%Q with 0%Q by ring.
  setoid_replace (Sy - Sy)%Q with 0%Q by ring.
  lra.
Qed.

Lemma arange_length k : List.length (arange k) = k.
Proof. unfold arange. now rewrite length_map, length_seq. Qed.

(** Two or more day numbers are not all equal to their mean. *)
Lemma arange_spread k m :
  (2 <= k)%nat ->
  ~ (dot (map (fun x => x - m) (arange k)) (map (fun x => x - m) (arange k)) == 0)%Q.
Proof.
  destruct k as [| [| k]]; try lia. intros _ H0.
  pose proof (dot_self_zero _ H0) as Hz.
  unfold arange in Hz. cbn [seq map] in Hz.
  assert (E0 : (inject_Z (Z.of_nat 0) - m == 0)%Q) by (apply Hz; now left).
  assert (E1 : (inject_Z (Z.of_nat 1) - m == 0)%Q) by (apply Hz; right; now left).
  change (inject_Z (Z.of_nat 0)) with 0%Q in E0.
  change (inject_Z (Z.of_nat 1)) with 1%Q in E1.
  lra.
Qed.

Lemma max_date_spec l :
  l <> [] -> In (max_date l) l /\ forall d, In d l -> d <= max_date l.
Proof.
  destruct l as [| d0 rest]; [congruence | intros _]. simpl max_date.
  revert d0. induction rest as [| e rest IH]; intros d0; simpl.
  - split; [now left |]. intros d [<- | []]. lia.
  - destruct (IH (Z.max d0 e)) as (Hin & Hmax). split.
    + destruct Hin as [Hin | Hin]; [| right; right; exact Hin].
      rewrite <- Hin. destruct (Z.max_spec d0 e) as [[_ ->] | [_ ->]]; auto.
    + pose proof (Hmax (Z.max d0 e) (or_introl eq_refl)) as Hm.
      intros d [E | [E | Hd]]; [lia | lia |]. apply Hmax. now right.
Qed.

Lemma max0_Qmax x : (max0 x == Qmax 0 x)%Q.
Proof.
  unfold max0. destruct (Qltb 0 x) eqn:E.
  - apply Qltb_true_iff in E. symmetry. apply Q.max_r. lra.
  - apply Qltb_false_iff in E. symmetry. now apply Q.max_l.
Qed.

Lemma max0_nonneg x : (0 <= max0 x)%Q.
Proof.
  unfold max0. destruct (Qltb 0 x) eqn:E.
  - apply Qltb_true_iff in E. lra.
  - apply Qle_refl.
Qed.

Lemma max0_of_positive x v : (x == v)%Q -> (0 < v)%Q -> (max0 x == v)%Q.
Proof.
  intros E Hv. unfold max0.
  assert (H : Qltb 0 x = true) by (apply Qltb_true_iff; lra).
  now rewrite H.
Qed.

(** The line fitted on a series that is 10, 20, 30. *)
Lemma fit_10_20_30 y1 y2 y3 :
  (y1 == 10)%Q -> (y2 == 20)%Q -> (y3 == 30)%Q ->
  (coef_ (fit (arange 3) [y1; y2; y3]) == 10)%Q
  /\ (intercept_ (fit (arange 3) [y1; y2; y3]) == 10)%Q.
Proof.
  intros H1 H2 H3. unfold fit, Qmean, arange.
  cbn [coef_ intercept_ seq map dot Qsum fold_right List.length].
  rewrite H1, H2, H3. split; vm_compute; reflexivity.
Qed.

(** The seven points of the forecast, on the fitted line. *)
Lemma forecast_of_points sales :
  let k := List.length sales in
  let model := fit (arange k) (map snd sales) in
  let last := max_date (map fst sales) in
  Forall2
    (fun p i =>
       date p = Calendar.strftime (last + (Z.of_nat i + 1))
       /\ (predicted_demand p ==
           Qmax 0 (coef_ model * inject_Z (Z.of_nat (k + i)) + intercept_ model))%Q)
    (forecast_of sales) (seq 0 7).
Proof.
  intros k model last. unfold forecast_of, enumerate.
  fold k. fold model. fold last.
  cbn [seq map List.length combine fst snd].
  repeat constructor; cbn [date predicted_demand];
    rewrite max0_Qmax; unfold predict;
    (apply Q.max_compat; [reflexivity | ring]).
Qed.

(** C1.  With at least 2 distinct order dates, the forecaster works on one
    point per order date, in chronological order, holding the sum of that
    date's [total_price]; the line [a * day_index + b] it fits over the day
    indices 0..k-1 minimises the sum of the squared residuals; forecast [i]
    (from 0) is dated (last observed date) + (i+1) days and its value is the
    line at index k+i, clamped to [max(0, value)].  For daily revenues
    10, 20, 30 the seven values are 40, 50, 60, 70, 80, 90, 100. *)
Theorem predict_demand_extends_the_least_squares_line orders :
  (2 <= List.length (distinct_dates orders))%nat ->
  let sales := daily_sales orders in
  let k := List.length sales in
  let model := fit (arange k) (map snd sales) in
  StronglySorted Z.lt (map fst sales)
  /\ (forall d y, In (d, y) sales <->
        (exists o, In o orders /\ order_date o = d) /\ y = revenue_on orders d)
  /\ (forall a b,
        (sse (arange k) (map snd sales) (coef_ model) (intercept_ model)
         <= sse (arange k) (map snd sales) a b)%Q)
  /\ (exists last,
        In last (map fst sales)
        /\ (forall d, In d (map fst sales) -> d <= last)
        /\ Forall2
             (fun p i =>
                date p = Calendar.strftime (last + (Z.of_nat i + 1))
                /\ (predicted_demand p ==
                    Qmax 0 (coef_ model * inject_Z (Z.of_nat (k + i))
                            + intercept_ model))%Q)
             (fst (predict_demand orders)) (seq 0 7))
  /\ (Forall2 Qeq (map snd sales) [10; 20; 30]%Q ->
      Forall2 Qeq (map predicted_demand (fst (predict_demand orders)))
              [40; 50; 60; 70; 80; 90; 100]%Q).
Proof.
  intros Hk sales k model.
  assert (Ek : k = List.length (distinct_dates orders)) by apply daily_sales_length.
  assert (Hfc : fst (predict_demand orders) = forecast_of sales).
  { rewrite predict_demand_eq. cbn [fst]. fold sales. fold k.
    destruct (Nat.ltb_spec k 2); [lia | reflexivity]. }
  split; [apply daily_sales_sorted |].
  split; [apply daily_sales_In |].
  split.
  { apply fit_least_squares.
    - now rewrite arange_length, length_map.
    - intros E. apply (f_equal (@List.length _)) in E.
      rewrite arange_length in E. simpl in E. lia.
    - apply arange_spread. lia. }
  split.
  { assert (Hne : map fst sales <> []).
    { intros E. apply (f_equal (@List.length _)) in E.
      rewrite length_map in E. simpl in E. fold k in E. lia. }
    destruct (max_date_spec _ Hne) as (Hin & Hmax).
    exists (max_date (map fst sales)). split; [exact Hin |].
    split; [exact Hmax |]. rewrite Hfc. apply forecast_of_points. }
  intros H. rewrite Hfc. subst model k.
  destruct sales as [| [d1 y1] [| [d2 y2] [| [d3 y3] [| e rest]]]]; simpl in H;
    inversion H as [| ? ? ? ? H1 H']; subst;
    inversion H' as [| ? ? ? ? H2 H'']; subst;
    inversion H'' as [| ? ? ? ? H3 H''']; subst;
    inversion H'''; subst.
  destruct (fit_10_20_30 y1 y2 y3 H1 H2 H3) as (Ea & Eb).
  unfold forecast_of, enumerate.
  cbn [seq map List.length combine fst snd predicted_demand].
  set (model := fit (arange 3) [y1; y2; y3]) in *.
  unfold predict.
  repeat constructor; apply max0_of_positive; try reflexivity;
    rewrite Ea, Eb; vm_compute; reflexivity.
Qed.

Lemma predict_demand_extends_the_least_squares_line_witness :
  (2 <= List.length (distinct_dates sample_orders))%nat
  /\ Forall2 Qeq (map snd (daily_sales sample_orders)) [10; 20; 30]%Q
  /\ Forall2 Qeq (map predicted_demand (fst (predict_demand sample_orders)))
             [40; 50; 60; 70; 80; 90; 100]%Q
  /\ map date (fst (predict_demand sample_orders))
     = ["2024-01-04"; "2024-01-05"; "2024-01-06"; "2024-01-07"; "2024-01-08";
        "2024-01-09"; "2024-01-10"]%string.
Proof.
  assert (Hk : (2 <= List.length (distinct_dates sample_orders))%nat)
    by (vm_compute; lia).
  assert (Hs : Forall2 Qeq (map snd (daily_sales sample_orders)) [10; 20; 30]%Q)
    by (vm_compute; repeat constructor).
  split; [exact Hk |]. split; [exact Hs |]. split.
  - exact (proj2 (proj2 (proj2 (proj2
             (predict_demand_extends_the_least_squares_line sample_orders Hk)))) Hs).
  - vm_compute. reflexivity.
Defined.

(* ================================================================== *)
(** * The recommendation engine *)

(** ** The seasonal list *)

Lemma starts_spec sub : forall s,
  starts sub s = true <-> exists post, s = sub ++ post.
Proof.
  induction sub as [| x sub IH]; intros [| y s]; cbn [starts app].
  - split; [intros _; now exists [] | reflexivity].
  - split; [intros _; now exists (y :: s) | reflexivity].
  - split; [discriminate | intros (post & E); discriminate].
  - rewrite andb_true_iff, Z.eqb_eq, IH. split.
    + intros (-> & post & ->). now exists post.
    + intros (post & E). injection E as -> ->. split; [reflexivity | now exists post].
Qed.

Lemma occurs_spec sub : forall s,
  occurs sub s = true <-> exists pre post, s = pre ++ sub ++ post.
Proof.
  induction s as [| c s IH]; cbn [occurs].
  - rewrite orb_false_r, starts_spec. split.
    + intros (post & E). now exists [], post.
    + intros ([| c pre] & post & E); [now exists post | discriminate].
  - rewrite orb_true_iff, starts_spec, IH. split.
    + intros [(post & E) | (pre & post & E)].
      * now exists [], post.
      * exists (c :: pre), post. simpl. now rewrite E.
    + intros ([| c' pre] & post & E).
      * left. now exists post.
      * right. simpl in E. injection E as _ E. now exists pre, post.
Qed.

Lemma casefold_cases c :
  (65 <= c <= 90 /\ casefold c = c + 32)
  \/ ((c = 304 \/ c = 305) /\ casefold c = 105)
  \/ (c = 383 /\ casefold c = 115)
  \/ (c = 8490 /\ casefold c = 107)
  \/ ((c < 65 \/ 90 < c) /\ c <> 304 /\ c <> 305 /\ c <> 383 /\ c <> 8490
      /\ casefold c = c).
Proof.
  unfold casefold.
  destruct (Z.leb_spec 65 c); destruct (Z.leb_spec c 90); cbn [andb];
    [left; lia | | |];
    (destruct (Z.eqb_spec c 304); cbn [orb];
     [right; left; lia |];
     destruct (Z.eqb_spec c 305); cbn [orb];
     [right; left; lia |];
     destruct (Z.eqb_spec c 383);
     [right; right; left; lia |];
     destruct (Z.eqb_spec c 8490);
     [right; right; right; left; lia |];
     right; right; right; right; lia).
Qed.

(** The folding of [re.IGNORECASE] identifies an ASCII character of the
    pattern with the code points that are the same letter. *)
Lemma casefold_same_letter p c :
  ascii p -> (casefold p = casefold c <-> same_letter p c).
Proof.
  unfold ascii, same_letter. intros Hp.
  destruct (casefold_cases p) as [(Hp1 & ->) | [(Hp1 & _) | [(Hp1 & _) |
    [(Hp1 & _) | (Hp1 & _ & _ & _ & _ & ->)]]]]; try lia;
    destruct (casefold_cases c) as [(Hc1 & ->) | [(Hc1 & ->) | [(Hc1 & ->) |
      [(Hc1 & ->) | (Hc1 & Hc2 & Hc3 & Hc4 & Hc5 & ->)]]]]; lia.
Qed.

Lemma map_casefold_eq n : forall w,
  Forall ascii n ->
  (map casefold n = map casefold w <-> Forall2 same_letter n w).
Proof.
  induction n as [| p n IH]; intros [| c w] Hn; cbn [map].
  - split; [constructor | reflexivity].
  - split; [discriminate | intros H; inversion H].
  - split; [discriminate | intros H; inversion H].
  - inversion Hn as [| ? ? Hp Hn']; subst. split.
    + intros [= E1 E2]. constructor.
      * now apply casefold_same_letter.
      * now apply IH.
    + intros H. inversion H as [| ? ? ? ? H1 H2]; subst. f_equal.
      * now apply casefold_same_letter.
      * now apply IH.
Qed.

(** The test made for one alternative of the pattern is the substring test
    up to the case of the letters. *)
Lemma occurs_casefold n s :
  Forall ascii n ->
  (occurs (map casefold n) (map casefold s) = true <-> ci_substring n s).
Proof.
  intros Hn. rewrite occurs_spec. unfold ci_substring. split.
  - intros (pre' & post' & E).
    apply map_eq_app in E. destruct E as (pre & rest & -> & _ & E).
    apply map_eq_app in E. destruct E as (w & post & -> & E & _).
    exists pre, w, post. split; [reflexivity |].
    apply map_casefold_eq; [assumption | now symmetry].
  - intros (pre & w & post & -> & H).
    exists (map casefold pre), (map casefold post).
    rewrite !map_app. do 2 f_equal. symmetry. now apply map_casefold_eq.
Qed.

Lemma twelve_months month :
  1 <= month <= 12 ->
  month = 1 \/ month = 2 \/ month = 3 \/ month = 4 \/ month = 5 \/ month = 6
  \/ month = 7 \/ month = 8 \/ month = 9 \/ month = 10 \/ month = 11
  \/ month = 12.
Proof. lia. Qed.

(** The pattern built from the season of a month splits back into the
    catalogue of that month. *)
Lemma alternatives_of_season month :
  1 <= month <= 12 ->
  alternatives []
    (literal (String.concat "|" (current_season_flowers month seasonal_map)))
  = map literal (season_catalog month).
Proof.
  intros H. apply twelve_months in H.
  repeat (destruct H as [-> | H]; [vm_compute; reflexivity |]).
  subst. vm_compute. reflexivity.
Qed.

Lemma season_catalog_ascii month n :
  1 <= month <= 12 -> In n (season_catalog month) -> Forall ascii (literal n).
Proof.
  intros H Hn. apply twelve_months in H. unfold ascii.
  repeat (destruct H as [-> | H];
          [cbn in Hn;
           repeat (destruct Hn as [<- | Hn];
                   [vm_compute; repeat constructor; discriminate |]);
           contradiction |]).
  subst. cbn in Hn.
  repeat (destruct Hn as [<- | Hn];
          [vm_compute; repeat constructor; discriminate |]);
    contradiction.
Qed.

Lemma str_contains_season month name :
  1 <= month <= 12 ->
  str_contains
    (literal (String.concat "|" (current_season_flowers month seasonal_map))) name
  = true
  <-> exists n, In n (season_catalog month) /\ ci_substring (literal n) name.
Proof.
  intros H. unfold str_contains, search_ignorecase.
  rewrite (alternatives_of_season month H), existsb_exists. split.
  - intros (alt & Halt & Ho). apply in_map_iff in Halt.
    destruct Halt as (n & <- & Hn). exists n. split; [exact Hn |].
    apply occurs_casefold; [| exact Ho]. now apply (season_catalog_ascii month).
  - intros (n & Hn & Hc). exists (literal n). split; [now apply in_map |].
    apply occurs_casefold; [| exact Hc]. now apply (season_catalog_ascii month).
Qed.

Lemma get_recommendations_nonempty np now month uid orders items flowers :
  orders <> [] -> flowers <> [] ->
  get_recommendations np now month uid orders items flowers =
  {| most_purchased :=
       ranked np (filter (fun o => Order.user_id o =? uid) orders) items flowers;
     seasonal :=
       filter (fun f =>
                 str_contains
                   (literal (String.concat "|"
                               (current_season_flowers month seasonal_map)))
                   (Flower.name f))
              flowers;
     trending := ranked np (filter (since_7_days now) orders) items flowers |}.
Proof.
  intros Ho Hf. unfold get_recommendations.
  apply empty_false_iff in Ho. apply empty_false_iff in Hf.
  rewrite Ho, Hf. reflexivity.
Qed.

(** C6.  With non-empty Orders and Flowers and a month from 1 to 12, the
    seasonal list is the Flowers snapshot filtered, without any cap, to the
    flowers whose name contains, up to the case of the letters, a name of
    the catalogue of that month.  In June, July and August a flower named
    "Red Rose Bouquet" is listed and one named "Tulip Mix" is not. *)
Theorem seasonal_is_the_catalog_filter np now month uid orders items flowers :
  orders <> [] -> flowers <> [] -> 1 <= month <= 12 ->
  let recs := get_recommendations np now month uid orders items flowers in
  (exists p : Flower.t -> bool,
      seasonal recs = filter p flowers
      /\ forall f, p f = true <->
           exists n, In n (season_catalog month)
                     /\ ci_substring (literal n) (Flower.name f))
  /\ (6 <= month <= 8 ->
      forall f, In f flowers ->
        (Flower.name f = literal "Red Rose Bouquet" -> In f (seasonal recs))
        /\ (Flower.name f = literal "Tulip Mix" -> ~ In f (seasonal recs))).
Proof.
  intros Ho Hf Hm recs. subst recs.
  rewrite (get_recommendations_nonempty _ _ _ _ _ _ _ Ho Hf). cbn [seasonal].
  split.
  - eexists. split; [reflexivity |]. intros f. cbv beta.
    now apply str_contains_season.
  - intros Hs f Hin.
    assert (C : month = 6 \/ month = 7 \/ month = 8) by lia.
    split; intros E; rewrite filter_In, E.
    + split; [exact Hin |].
      destruct C as [-> | [-> | ->]]; vm_compute; reflexivity.
    + intros (_ & H).
      destruct C as [-> | [-> | ->]]; vm_compute in H; discriminate.
Qed.

Lemma seasonal_is_the_catalog_filter_witness :
  sample_orders <> [] /\ mixed_case_flowers <> [] /\ 1 <= 7 <= 12
  /\ seasonal (get_recommendations numpy_stable (midnight 2024 7 15) 7 7
                 sample_orders sample_items mixed_case_flowers)
     = [ Flower.mk 1 (literal "Red Rose Bouquet") 5;
         Flower.mk 3 (literal "LAVENDER") 10;
         Flower.mk 4 (literal "sunflower seeds") 2;
         Flower.mk 5 [82; 111; 383; 101] 7 ]
  /\ (exists p : Flower.t -> bool,
         seasonal (get_recommendations numpy_stable (midnight 2024 7 15) 7 7
                     sample_orders sample_items mixed_case_flowers)
         = filter p mixed_case_flowers
         /\ forall f, p f = true <->
              exists n, In n (season_catalog 7)
                        /\ ci_substring (literal n) (Flower.name f))
  /\ In (Flower.mk 1 (literal "Red Rose Bouquet") 5)
        (seasonal (get_recommendations numpy_stable (midnight 2024 7 15) 7 7
                     sample_orders sample_items mixed_case_flowers))
  /\ ~ In (Flower.mk 2 (literal "Tulip Mix") 5)
          (seasonal (get_recommendations numpy_stable (midnight 2024 7 15) 7 7
                       sample_orders sample_items mixed_case_flowers)).
Proof.
  assert (Ho : sample_orders <> []) by discriminate.
  assert (Hf : mixed_case_flowers <> []) by discriminate.
  assert (Hm : 1 <= 7 <= 12) by lia.
  assert (Hs : 6 <= 7 <= 8) by lia.
  pose proof (seasonal_is_the_catalog_filter numpy_stable (midnight 2024 7 15)
                7 7 sample_orders sample_items mixed_case_flowers Ho Hf Hm) as H.
  cbv zeta in H. destruct H as (Hp & H). specialize (H Hs).
  split; [exact Ho |]. split; [exact Hf |]. split; [exact Hm |].
  split; [vm_compute; reflexivity |]. split; [exact Hp |]. split.
  - apply (H (Flower.mk 1 (literal "Red Rose Bouquet") 5));
      [simpl; auto | reflexivity].
  - apply (H (Flower.mk 2 (literal "Tulip Mix") 5));
      [simpl; auto | reflexivity].
Defined.

(** C10.  When the Orders snapshot or the Flowers snapshot is empty,
    [get_recommendations] returns its three lists empty; so with no orders
    the seasonal list is empty even when the Flowers snapshot holds flowers
    of the season. *)
Theorem empty_snapshot_gives_no_recommendations
    np now month uid orders items flowers :
  orders = [] \/ flowers = [] ->
  get_recommendations np now month uid orders items flowers = no_recommendations.
Proof.
  intros [-> | ->]; unfold get_recommendations.
  - reflexivity.
  - rewrite orb_true_r. reflexivity.
Qed.

Lemma empty_snapshot_gives_no_recommendations_witness :
  sample_flowers <> []
  /\ seasonal (get_recommendations numpy_stable (midnight 2024 7 15) 7 7
                 [] sample_items sample_flowers) = [].
Proof.
  split; [discriminate |].
  rewrite (empty_snapshot_gives_no_recommendations numpy_stable
             (midnight 2024 7 15) 7 7
             [] sample_items sample_flowers (or_introl eq_refl)).
  reflexivity.
Defined.

(** ** The ranked lists *)

Lemma isin_nil_filter {A : Type} (f : A -> Z) (l : list A) :
  filter (fun x => isin (f x) []) l = [].
Proof. induction l; simpl; auto. Qed.

Lemma items_of_nil items : items_of [] items = [].
Proof. unfold items_of. apply isin_nil_filter. Qed.

Lemma take_nil {A : Type} (indexer : list nat) : take (@nil A) indexer = [].
Proof.
  unfold take. induction indexer as [| i rest IH]; [reflexivity |].
  cbn [flat_map]. rewrite IH. now destruct i.
Qed.

Lemma top_flower_ids_nil np : top_flower_ids np [] = [].
Proof.
  unfold top_flower_ids, sort_values_desc. cbn [groupby_sum map group_keys fold_right rev].
  now rewrite take_nil.
Qed.





(** Both guards of the ranking only skip work whose outcome is empty. *)
Lemma ranked_eq np orders items flowers :
  ranked np orders items flowers
  = flowers_with_ids (top_flower_ids np (items_of orders items)) flowers.
Proof.
  unfold ranked. destruct orders as [| o orders]; cbn [empty negb].
  - rewrite items_of_nil, top_flower_ids_nil.
    unfold flowers_with_ids. now rewrite isin_nil_filter.
  - destruct (items_of (o :: orders) items) as [| it its]; cbn [empty negb].
    + rewrite top_flower_ids_nil.
      unfold flowers_with_ids. now rewrite isin_nil_filter.
    + reflexivity.
Qed.









(* ================================================================== *)
(** * The service endpoints *)

Lemma empty_true_iff {A : Type} (l : list A) : empty l = true <-> l = [].
Proof. destruct l; simpl; split; congruence. Qed.

(** The frames handed to the endpoints: all three as read, or all three
    empty as soon as one query raises. *)
Lemma get_dataframes_frames db :
  (forall o i f, reads db o i f -> fst (get_dataframes db) = (o, i, f))
  /\ (read_fails db -> fst (get_dataframes db) = ([], [], [])).
Proof.
  destruct db as [[o | e1] [i | e2] [f | e3]]; unfold reads, read_fails, get_dataframes;
    cbn [Db.orders Db.order_items Db.flowers fst]; split;
    try (intros o' i' f' (H1 & H2 & H3); congruence);
    try reflexivity.
  intros [(e & H) | [(e & H) | (e & H)]]; discriminate.
Qed.

Lemma read_fails_or_reads db :
  read_fails db \/ exists o i f, reads db o i f.
Proof.
  destruct db as [[o | e1] [i | e2] [f | e3]]; unfold reads, read_fails;
    cbn [Db.orders Db.order_items Db.flowers];
    try (right; now exists o, i, f);
    left; eauto.
Qed.

Lemma reads_not_fails db o i f : reads db o i f -> ~ read_fails db.
Proof.
  intros (H1 & H2 & H3) [(e & H) | [(e & H) | (e & H)]]; congruence.
Qed.

(** X1.  [GET /recommend/{user_id}] raises the 500 "Database connection
    failed or tables empty" exactly when one of the three queries raises or
    the flowers table is empty.  Otherwise it returns
    [get_recommendations] of the three tables, which is three empty lists
    when the orders table is empty. *)
Theorem recommend_answers np now month db uid :
  (recommend np now month db uid
   = HTTPException 500 "Database connection failed or tables empty"
   <-> read_fails db \/ Db.flowers db = Frame [])
  /\ (forall o i f, reads db o i f -> f <> [] ->
        recommend np now month db uid
        = Return (get_recommendations np now month uid o i f)
        /\ (o = [] -> recommend np now month db uid = Return no_recommendations)).
Proof.
  destruct (get_dataframes_frames db) as (Hok & Hfail).
  assert (Hreads : forall o i f, reads db o i f ->
            recommend np now month db uid
            = if empty f
              then HTTPException 500 "Database connection failed or tables empty"
              else Return (get_recommendations np now month uid o i f)).
  { intros o i f H. unfold recommend. now rewrite (Hok o i f H). }
  split.
  - split.
    + intros H. destruct (read_fails_or_reads db) as [Hf | (o & i & f & Hr)];
        [now left | right].
      rewrite (Hreads o i f Hr) in H. destruct f; [apply Hr | discriminate H].
    + intros [Hf | Hf].
      * unfold recommend. now rewrite (Hfail Hf).
      * destruct (read_fails_or_reads db) as [Hf' | (o & i & f & Hr)].
        -- unfold recommend. now rewrite (Hfail Hf').
        -- rewrite (Hreads o i f Hr). destruct Hr as (_ & _ & Hr).
           rewrite Hf in Hr. injection Hr as <-. reflexivity.
  - intros o i f Hr Hne. rewrite (Hreads o i f Hr).
    apply empty_false_iff in Hne. rewrite Hne. split; [reflexivity |].
    intros ->. reflexivity.
Qed.

Lemma recommend_answers_witness :
  recommend numpy_stable (midnight 2024 1 5) 7 broken_db 7
  = HTTPException 500 "Database connection failed or tables empty"
  /\ recommend numpy_stable (midnight 2024 1 5) 7 new_shop_db 7 = Return no_recommendations
  /\ recommend numpy_stable (midnight 2024 1 5) 7 sample_db 7
     = Return (get_recommendations numpy_stable (midnight 2024 1 5) 7 7
                 sample_orders sample_items sample_flowers).
Proof.
  split; [| split].
  - apply (proj1 (recommend_answers numpy_stable (midnight 2024 1 5) 7 broken_db 7)).
    left. right. left. now exists "connection refused"%string.
  - apply (proj2 (recommend_answers numpy_stable (midnight 2024 1 5) 7 new_shop_db 7)
             [] [] sample_flowers); [repeat split | discriminate | reflexivity].
  - apply (proj2 (recommend_answers numpy_stable (midnight 2024 1 5) 7 sample_db 7)
             sample_orders sample_items sample_flowers);
      [repeat split | discriminate].
Defined.



(** X3.  [GET /analytics/demand-prediction] raises the 500 "No order data
    available for prediction" exactly when one of the three queries raises
    (also a query whose table the forecast does not use) or the orders table
    is empty.  Otherwise it returns the forecast of the orders table: no
    point with fewer than 2 distinct order dates, 7 points from 2 distinct
    dates on; an empty flowers table does not matter. *)
Theorem demand_prediction_answers db :
  (demand_prediction db
   = HTTPException 500 "No order data available for prediction"
   <-> read_fails db \/ Db.orders db = Frame [])
  /\ (forall o i f, reads db o i f -> o <> [] ->
        demand_prediction db = Return (fst (predict_demand o))
        /\ ((List.length (distinct_dates o) < 2)%nat ->
            demand_prediction db = Return [])
        /\ ((2 <= List.length (distinct_dates o))%nat ->
            exists body, demand_prediction db = Return body
                         /\ List.length body = 7%nat)).
Proof.
  destruct (get_dataframes_frames db) as (Hok & Hfail).
  assert (Hreads : forall o i f, reads db o i f ->
            demand_prediction db
            = if empty o
              then HTTPException 500 "No order data available for prediction"
              else Return (fst (predict_demand o))).
  { intros o i f H. unfold demand_prediction. now rewrite (Hok o i f H). }
  split.
  - split.
    + intros H. destruct (read_fails_or_reads db) as [Hf | (o & i & f & Hr)];
        [now left | right].
      rewrite (Hreads o i f Hr) in H. destruct o; [apply Hr | discriminate H].
    + intros [Hf | Hf].
      * unfold demand_prediction. now rewrite (Hfail Hf).
      * destruct (read_fails_or_reads db) as [Hf' | (o & i & f & Hr)].
        -- unfold demand_prediction. now rewrite (Hfail Hf').
        -- rewrite (Hreads o i f Hr). destruct Hr as (Hr & _ & _).
           rewrite Hf in Hr. injection Hr as <-. reflexivity.
  - intros o i f Hr Hne. rewrite (Hreads o i f Hr).
    apply empty_false_iff in Hne. rewrite Hne.
    rewrite predict_demand_eq. cbn [fst]. rewrite daily_sales_length.
    split; [reflexivity |]. split.
    + intros Hlt. apply Nat.ltb_lt in Hlt. now rewrite Hlt.
    + intros Hge. apply Nat.ltb_ge in Hge. rewrite Hge.
      eexists. split; [reflexivity | apply forecast_of_length].
Qed.

Lemma demand_prediction_answers_witness :
  demand_prediction broken_db
  = HTTPException 500 "No order data available for prediction"
  /\ exists body, demand_prediction sample_db = Return body
                  /\ List.length body = 7%nat.
Proof.
  split.
  - apply (proj1 (demand_prediction_answers broken_db)).
    left. right. left. now exists "connection refused"%string.
  - apply (proj2 (demand_prediction_answers sample_db)
             sample_orders sample_items sample_flowers);
      [repeat split | discriminate | vm_compute; lia].
Defined.

(* ================================================================== *)
(** * The join of the aggregator *)





(** X5.  A row of the merged frame is built from an order item, a flower
    whose [id] is the item's [flower_id] and an order whose [id] is the
    item's [order_id], and every such triple gives a row: an item that names
    a missing flower or a missing order is left out, without an error. *)
Theorem joined_rows_are_the_resolved_items orders items flowers r :
  In r (joined orders items flowers) <->
  exists it fl od,
    In it items /\ In fl flowers /\ In od orders
    /\ Flower.id fl = OrderItem.flower_id it
    /\ Order.id od = OrderItem.order_id it
    /\ r = row_of it fl od.
Proof.
  unfold joined, convert_rows, merge_orders, merge_flowers, row_of. split.
  - intros H. apply in_map_iff in H. destruct H as (r0 & <- & H).
    apply in_flat_map in H. destruct H as ([it fl] & Hx & H).
    apply in_map_iff in H. destruct H as (od & <- & Hod).
    apply filter_In in Hod. destruct Hod as (Hod & Eod).
    apply in_flat_map in Hx. destruct Hx as (it' & Hit & Hx).
    apply in_map_iff in Hx. destruct Hx as (fl' & E & Hfl).
    inversion E; subst. apply filter_In in Hfl. destruct Hfl as (Hfl & Efl).
    exists it, fl, od. cbn [fst snd] in *.
    apply Z.eqb_eq in Eod, Efl. repeat split; assumption.
  - intros (it & fl & od & Hit & Hfl & Hod & Efl & Eod & ->).
    apply in_map_iff.
    exists (Row.mk (Flower.name fl) (OrderItem.quantity it)
                   (Order.total_price od) (Order.user_id od)
                   (Order.ordered_at od)).
    split; [reflexivity |].
    apply in_flat_map. exists (it, fl). split.
    + apply in_flat_map. exists it. split; [assumption |].
      apply in_map. apply filter_In. split; [assumption | now apply Z.eqb_eq].
    + apply in_map_iff. exists od. split; [reflexivity |].
      apply filter_In. split; [assumption | now apply Z.eqb_eq].
Qed.



Lemma unique_key_filter {A : Type} (key : A -> Z) (x : Z) (l : list A) :
  NoDup (map key l) ->
  List.length (filter (fun a => key a =? x) l)
  = if isin x (map key l) then 1%nat else 0%nat.
Proof.
  induction l as [| a l IH]; simpl; intros Hnd; [reflexivity |].
  inversion Hnd as [| ? ? Hnotin Hnd']; subst.
  unfold isin in *. cbn [existsb]. rewrite (Z.eqb_sym x (key a)).
  destruct (Z.eqb_spec (key a) x) as [E | N]; cbn [orb List.length].
  - rewrite IH by assumption.
    destruct (existsb (Z.eqb x) (map key l)) eqn:Ex; [| reflexivity].
    exfalso. apply Hnotin. rewrite E.
    apply existsb_exists in Ex. destruct Ex as (y & Hy & Ey).
    apply Z.eqb_eq in Ey. now subst.
  - now apply IH.
Qed.

Lemma merge_orders_app df1 df2 orders :
  merge_orders (df1 ++ df2) orders
  = merge_orders df1 orders ++ merge_orders df2 orders.
Proof. unfold merge_orders. apply flat_map_app. Qed.

(** X6.  With unique flower ids and unique order ids, the merged frame has
    exactly one row for each order item whose flower and order both exist:
    its length is the number of such items, so it never exceeds the number
    of order items. *)
Theorem joined_has_one_row_per_resolved_item orders items flowers :
  NoDup (map Flower.id flowers) -> NoDup (map Order.id orders) ->
  List.length (joined orders items flowers)
  = List.length (filter (resolves orders flowers) items)
  /\ (List.length (joined orders items flowers) <= List.length items)%nat.
Proof.
  intros Hf Ho.
  assert (Hlen : List.length (joined orders items flowers)
                 = List.length (filter (resolves orders flowers) items)).
  { unfold joined, convert_rows. rewrite length_map.
    induction items as [| it items IH]; [reflexivity |].
    unfold merge_flowers. cbn [flat_map]. fold (merge_flowers items flowers).
    rewrite merge_orders_app, length_app, IH. cbn [filter]. unfold resolves at 2.
    pose proof (unique_key_filter Flower.id (OrderItem.flower_id it) flowers Hf)
      as Hfl.
    destruct (filter (fun f => Flower.id f =? OrderItem.flower_id it) flowers)
      as [| fl [| fl' rest]] eqn:Efl; cbn [List.length] in Hfl;
      destruct (isin (OrderItem.flower_id it) (map Flower.id flowers));
      try discriminate Hfl; cbn [map andb].
    - reflexivity.
    - unfold merge_orders. cbn [flat_map fst snd]. rewrite app_nil_r, length_map.
      rewrite (unique_key_filter Order.id (OrderItem.order_id it) orders Ho).
      destruct (isin (OrderItem.order_id it) (map Order.id orders)); reflexivity. }
  split; [exact Hlen |]. rewrite Hlen. apply filter_length_le.
Qed.

Lemma joined_has_one_row_per_resolved_item_witness :
  List.length (joined sample_orders sample_items sample_flowers) = 4%nat.
Proof.
  rewrite (proj1 (joined_has_one_row_per_resolved_item
                    sample_orders sample_items sample_flowers
                    ltac:(repeat constructor; simpl; intuition discriminate)
                    ltac:(repeat constructor; simpl; intuition discriminate))).
  reflexivity.
Defined.

(* ================================================================== *)
(** * Grouping keeps the total *)

Lemma Qsum_cons (x : Q) (l : list Q) : Qsum (x :: l) = (x + Qsum l)%Q.
Proof. reflexivity. Qed.





Section Conservation.

Context {R : Type}.
Variable key : R -> Z.
Variable val : R -> Q.

Lemma indicator_sum (x : Z) (v : Q) ks :
  NoDup ks ->
  (Qsum (map (fun k => if x =? k then v else 0) ks)
   == if isin x ks then v else 0)%Q.
Proof.
  induction ks as [| k ks IH]; intros Hnd; [reflexivity |].
  inversion Hnd as [| ? ? Hnotin Hnd']; subst.
  rewrite map_cons, Qsum_cons, (IH Hnd').
  unfold isin. cbn [existsb].
  destruct (Z.eqb_spec x k) as [-> | N]; cbn [orb].
  - destruct (existsb (Z.eqb k) ks) eqn:E; [| ring].
    exfalso. apply Hnotin. apply existsb_exists in E.
    destruct E as (y & Hy & Ey). apply Z.eqb_eq in Ey. now subst.
  - ring.
Qed.

Lemma grouped_sum_cons (r : R) df ks :
  (Qsum (map (fun k => Qsum (map val (filter (fun a => key a =? k) (r :: df)))) ks)
   == Qsum (map (fun k => if key r =? k then val r else 0) ks)
      + Qsum (map (fun k => Qsum (map val (filter (fun a => key a =? k) df))) ks))%Q.
Proof.
  induction ks as [| k ks IH]; [simpl; ring |].
  rewrite !map_cons, !Qsum_cons, IH. cbn [filter].
  destruct (key r =? k); [rewrite map_cons, Qsum_cons |]; ring.
Qed.

Lemma grouped_sum_total df ks :
  NoDup ks -> (forall r, In r df -> In (key r) ks) ->
  (Qsum (map (fun k => Qsum (map val (filter (fun a => key a =? k) df))) ks)
   == Qsum (map val df))%Q.
Proof.
  intros Hnd. induction df as [| r df IH]; intros Hin.
  - cbn [filter map]. clear. induction ks as [| k ks IHk]; [reflexivity |].
    rewrite map_cons, Qsum_cons, IHk. reflexivity.
  - rewrite grouped_sum_cons, indicator_sum by assumption.
    rewrite IH by (intros a Ha; apply Hin; now right).
    assert (E : isin (key r) ks = true)
      by (apply isin_In, Hin; now left).
    rewrite E, map_cons, Qsum_cons. reflexivity.
Qed.

(** The sums of the groups add up to the sum of the column. *)
Lemma groupby_sum_total df :
  (Qsum (map snd (groupby_sum Z.compare key val Qsum df)) == Qsum (map val df))%Q.
Proof.
  unfold groupby_sum. rewrite map_map. cbn [snd].
  rewrite (map_ext _ (fun k => Qsum (map val (filter (fun a => key a =? k) df))))
    by (intros k; now rewrite group_rows_Z).
  apply grouped_sum_total.
  - apply sorted_lt_NoDup, group_keys_sorted.
  - intros r Hr. apply (proj2 (In_group_keys Z.compare Zcompare_eq _ _)).
    now apply in_map.
Qed.

End Conservation.

(** X8.  The daily series of the forecaster keeps the revenue: the sums of
    its points add up to the sum of [total_price] over all orders, so no
    order is lost or counted twice by the grouping by date. *)
Theorem daily_sales_keep_the_revenue orders :
  (Qsum (map snd (daily_sales orders)) == Qsum (map Order.total_price orders))%Q
  /\ (Qsum (map snd (daily_sales (snd (predict_demand orders))))
      == Qsum (map Order.total_price orders))%Q.
Proof.
  split.
  - apply groupby_sum_total.
  - rewrite predict_demand_eq. cbn [snd]. rewrite daily_sales_convert.
    apply groupby_sum_total.
Qed.





(* ================================================================== *)
(** * A linear history *)

Lemma sse_nonneg xs : forall ys a b, (0 <= sse xs ys a b)%Q.
Proof.
  induction xs as [| x xs IH]; intros [| y ys] a b; cbn [sse];
    try apply Qle_refl.
  pose proof (Qsquare_nonneg (y - (a * x + b))) as Hsq.
  pose proof (IH ys a b). lra.
Qed.

Lemma sse_of_line xs : forall ys a b,
  Forall2 (fun y x => y == a * x + b)%Q ys xs -> (sse xs ys a b == 0)%Q.
Proof.
  induction xs as [| x xs IH]; intros ys a b H; inversion H as [| y ? ys' ? E H'];
    subst; cbn [sse]; [reflexivity |].
  rewrite (IH ys' a b H'), E. ring.
Qed.

Lemma sse_zero_on_line xs : forall ys a b,
  List.length xs = List.length ys -> (sse xs ys a b == 0)%Q ->
  Forall2 (fun y x => y == a * x + b)%Q ys xs.
Proof.
  induction xs as [| x xs IH]; intros [| y ys] a b Hlen H; try discriminate;
    [constructor |].
  cbn [sse] in H. injection Hlen as Hlen.
  pose proof (Qsquare_nonneg (y - (a * x + b))) as Hsq.
  pose proof (sse_nonneg xs ys a b) as Hrest.
  constructor.
  - assert (E : ((y - (a * x + b)) * (y - (a * x + b)) == 0)%Q) by lra.
    apply Qmult_integral in E. lra.
  - apply IH; [assumption | lra].
Qed.

(** X9.  When the daily revenues of at least 2 distinct dates lie on a line
    [a * day_index + b], the fitted slope and intercept are [a] and [b], and
    the 7 forecast values continue that line at the indices k..k+6, clamped
    at 0. *)
Theorem linear_history_is_continued orders (a b : Q) :
  (2 <= List.length (distinct_dates orders))%nat ->
  Forall2 (fun y x => y == a * x + b)%Q
          (map snd (daily_sales orders))
          (arange (List.length (daily_sales orders))) ->
  let k := List.length (daily_sales orders) in
  let model := fit (arange k) (map snd (daily_sales orders)) in
  (coef_ model == a)%Q /\ (intercept_ model == b)%Q
  /\ Forall2
       (fun p i =>
          (predicted_demand p
           == Qmax 0 (a * inject_Z (Z.of_nat (k + i)) + b))%Q)
       (fst (predict_demand orders)) (seq 0 7).
Proof.
  intros Hk Hline k model.
  assert (Ek : k = List.length (distinct_dates orders)) by apply daily_sales_length.
  assert (Hlen : List.length (arange k) = List.length (map snd (daily_sales orders)))
    by (now rewrite arange_length, length_map).
  assert (Hmin : (sse (arange k) (map snd (daily_sales orders))
                      (coef_ model) (intercept_ model) <= 0)%Q).
  { rewrite <- (sse_of_line _ _ a b Hline). apply fit_least_squares.
    - exact Hlen.
    - intros E. apply (f_equal (@List.length _)) in E.
      rewrite arange_length in E. simpl in E. lia.
    - apply arange_spread. lia. }
  pose proof (sse_nonneg (arange k) (map snd (daily_sales orders))
                         (coef_ model) (intercept_ model)) as Hpos.
  assert (Hfit : Forall2 (fun y x => y == coef_ model * x + intercept_ model)%Q
                         (map snd (daily_sales orders)) (arange k)).
  { apply sse_zero_on_line; [exact Hlen | lra]. }
  assert (Hab : (coef_ model == a)%Q /\ (intercept_ model == b)%Q).
  { fold k in Hline. clearbody model. clear Hmin Hpos Hlen.
    revert Hline Hfit. generalize (map snd (daily_sales orders)) as ys.
    intros ys Hline Hfit.
    destruct k as [| [| k']]; try lia.
    unfold arange in Hline, Hfit. cbn [seq map] in Hline, Hfit.
    inversion Hline as [| y0 ? l0 ? L0 Hline']; subst.
    inversion Hline' as [| y1 ? l1 ? L1 _]; subst.
    inversion Hfit as [| ? ? ? ? F0 Hfit']; subst.
    inversion Hfit' as [| ? ? ? ? F1 _]; subst.
    change (inject_Z 0) with 0%Q in L0, F0.
    change (inject_Z 1) with 1%Q in L1, F1.
    split; lra. }
  destruct Hab as (Ea & Eb). split; [exact Ea |]. split; [exact Eb |].
  assert (Hfc : fst (predict_demand orders) = forecast_of (daily_sales orders)).
  { rewrite predict_demand_eq. cbn [fst]. fold k.
    destruct (Nat.ltb_spec k 2); [lia | reflexivity]. }
  rewrite Hfc.
  eapply Forall2_impl; [| apply forecast_of_points].
  cbv beta. intros p i (_ & Hp). rewrite Hp. fold k. fold model.
  apply Q.max_compat; [reflexivity |]. rewrite Ea, Eb. reflexivity.
Qed.

Lemma linear_history_is_continued_witness :
  (coef_ (fit (arange (List.length (daily_sales sample_orders)))
              (map snd (daily_sales sample_orders))) == 10)%Q
  /\ (intercept_ (fit (arange (List.length (daily_sales sample_orders)))
                      (map snd (daily_sales sample_orders))) == 10)%Q.
Proof.
  assert (Hk : (2 <= List.length (distinct_dates sample_orders))%nat)
    by (vm_compute; lia).
  assert (Hl : Forall2 (fun y x => y == 10 * x + 10)%Q
                       (map snd (daily_sales sample_orders))
                       (arange (List.length (daily_sales sample_orders))))
    by (vm_compute; repeat constructor).
  pose proof (linear_history_is_continued sample_orders 10 10 Hk Hl) as H.
  cbv zeta in H. split; [exact (proj1 H) | exact (proj1 (proj2 H))].
Defined.

(* ================================================================== *)
(** * The frame left by the forecaster *)

(** X10.  After [predict_demand] the caller's Orders frame holds native
    timestamps only, the same rows with the same ids, users, instants and
    prices; a second call on that frame returns the same forecast and
    changes nothing more; and a frame that held native timestamps from the
    start is left as it was. *)
Theorem predict_demand_settles_the_snapshot orders :
  Forall (fun o => exists t, Order.ordered_at o = Native t)
         (snd (predict_demand orders))
  /\ map (fun o => (Order.id o, Order.user_id o,
                    to_datetime (Order.ordered_at o), Order.total_price o))
         (snd (predict_demand orders))
     = map (fun o => (Order.id o, Order.user_id o,
                      to_datetime (Order.ordered_at o), Order.total_price o))
           orders
  /\ predict_demand (snd (predict_demand orders))
     = (fst (predict_demand orders), snd (predict_demand orders))
  /\ (Forall (fun o => exists t, Order.ordered_at o = Native t) orders ->
      snd (predict_demand orders) = orders).
Proof.
  split; [| split; [| split]].
  - rewrite predict_demand_eq. cbn [snd]. unfold convert_orders.
    apply Forall_forall. intros o Ho. apply in_map_iff in Ho.
    destruct Ho as (o' & <- & _). eexists. reflexivity.
  - rewrite predict_demand_eq. cbn [snd]. unfold convert_orders.
    rewrite map_map. apply map_ext. intros o. reflexivity.
  - apply predict_demand_again.
  - apply predict_demand_keeps_native_snapshot.
Qed.

Lemma predict_demand_settles_the_snapshot_witness :
  snd (predict_demand (snd (predict_demand text_orders)))
  = snd (predict_demand text_orders).
Proof.
  apply (proj2 (proj2 (proj2 (predict_demand_settles_the_snapshot
                                (snd (predict_demand text_orders)))))).
  repeat constructor. eexists. reflexivity.
Defined.

(* ================================================================== *)
(** * The order of the rows *)

Lemma sorted_lt_unique l1 : forall l2,
  StronglySorted Z.lt l1 -> StronglySorted Z.lt l2 ->
  (forall x, In x l1 <-> In x l2) -> l1 = l2.
Proof.
  induction l1 as [| a l1 IH]; intros [| b l2] H1 H2 Hin.
  - reflexivity.
  - exfalso. apply (proj2 (Hin b)). now left.
  - exfalso. apply (proj1 (Hin a)). now left.
  - inversion H1 as [| ? ? H1' Ha]; inversion H2 as [| ? ? H2' Hb]; subst.
    rewrite Forall_forall in Ha, Hb.
    assert (E : a = b).
    { destruct (proj1 (Hin a) (or_introl eq_refl)) as [E | Hab]; [now symmetry |].
      destruct (proj2 (Hin b) (or_introl eq_refl)) as [E | Hba]; [assumption |].
      specialize (Ha b Hba). specialize (Hb a Hab). lia. }
    subst b. f_equal. apply IH; try assumption.
    intros x. split; intros Hx.
    + destruct (proj1 (Hin x) (or_intror Hx)) as [E | Hx']; [| assumption].
      specialize (Ha x Hx). lia.
    + destruct (proj2 (Hin x) (or_intror Hx)) as [E | Hx']; [| assumption].
      specialize (Hb x Hx). lia.
Qed.

Lemma group_keys_same_members l l' :
  (forall x, In x l <-> In x l') ->
  group_keys Z.compare l = group_keys Z.compare l'.
Proof.
  intros H. apply sorted_lt_unique; try apply group_keys_sorted.
  intros x. rewrite !(In_group_keys Z.compare Zcompare_eq). apply H.
Qed.

Lemma filter_perm {A : Type} (p : A -> bool) l l' :
  Permutation l l' -> Permutation (filter p l) (filter p l').
Proof.
  induction 1 as [| x l1 l2 _ IH | x y l | l1 l2 l3 _ IH1 _ IH2]; simpl.
  - constructor.
  - destruct (p x); [now constructor | assumption].
  - destruct (p x), (p y); try reflexivity. apply perm_swap.
  - now transitivity (filter p l2).
Qed.

Lemma isin_perm x l l' : Permutation l l' -> isin x l = isin x l'.
Proof.
  intros H. destruct (isin x l') eqn:E.
  - apply isin_In. apply isin_In in E.
    now apply (Permutation_in _ (Permutation_sym H)).
  - destruct (isin x l) eqn:E'; [| reflexivity].
    apply isin_In in E'. apply (Permutation_in _ H) in E'.
    apply isin_In in E'. congruence.
Qed.

Lemma empty_perm {A : Type} (l l' : list A) :
  Permutation l l' -> empty l = empty l'.
Proof.
  intros H. destruct l as [| a l], l' as [| b l']; try reflexivity.
  - apply Permutation_nil in H. discriminate.
  - apply Permutation_sym, Permutation_nil in H. discriminate.
Qed.

Lemma items_of_perm orders orders' items items' :
  Permutation orders orders' -> Permutation items items' ->
  Permutation (items_of orders items) (items_of orders' items').
Proof.
  intros Ho Hi. unfold items_of.
  rewrite (filter_ext _ (fun it => isin (OrderItem.order_id it) (map Order.id orders'))).
  - now apply filter_perm.
  - intros it. apply isin_perm. now apply Permutation_map.
Qed.

Lemma top_flower_ids_perm np items items' :
  Permutation items items' -> top_flower_ids np items = top_flower_ids np items'.
Proof.
  intros H. unfold top_flower_ids. do 3 f_equal. unfold groupby_sum.
  rewrite (group_keys_same_members (map OrderItem.flower_id items)
                                   (map OrderItem.flower_id items')).
  - apply map_ext. intros k. f_equal. rewrite !sum_int64_spec. f_equal.
    apply Zsum_perm.
    apply Permutation_map. unfold group_rows. now apply filter_perm.
  - intros x. split; apply Permutation_in;
      [| apply Permutation_sym]; now apply Permutation_map.
Qed.

Lemma ranked_perm np orders orders' items items' flowers :
  Permutation orders orders' -> Permutation items items' ->
  ranked np orders items flowers = ranked np orders' items' flowers.
Proof.
  intros Ho Hi. rewrite !ranked_eq. f_equal.
  apply top_flower_ids_perm. now apply items_of_perm.
Qed.

(** X11.  The recommendations do not depend on the order in which the
    database hands over the rows of Orders and of OrderItems: on the same
    rows in any other order, [get_recommendations] returns the same three
    lists, whatever the sort does with equal quantities. *)
Theorem recommendations_ignore_row_order
    np now month uid orders orders' items items' flowers :
  Permutation orders orders' -> Permutation items items' ->
  get_recommendations np now month uid orders items flowers
  = get_recommendations np now month uid orders' items' flowers.
Proof.
  intros Ho Hi. unfold get_recommendations.
  rewrite (empty_perm orders orders' Ho).
  destruct (empty orders' || empty flowers); [reflexivity |].
  f_equal; apply ranked_perm; try assumption; now apply filter_perm.
Qed.

Lemma recommendations_ignore_row_order_witness :
  get_recommendations numpy_exchanging (midnight 2024 1 5) 7 7
    sample_orders sample_items sample_flowers
  = get_recommendations numpy_exchanging (midnight 2024 1 5) 7 7
      (rev sample_orders) (rev sample_items) sample_flowers.
Proof.
  apply recommendations_ignore_row_order; apply Permutation_rev.
Defined.

